(** * Task manager gRPC service: data store, subscription registry, RPC handlers

    Shallow embedding of [DataStore] (src/src/types/index.ts, the data store
    part) and of [TaskServiceImpl] (src/unnamed/part_004), together with the
    metadata authentication helper of src/src/middleware/auth.ts.

    Modelling choices, following the TypeScript code:
    - JS [Map]s and [Set]s iterate in insertion order; they are association
      lists in insertion order ([map_set] replaces an existing key in place
      and appends a new one, [map_delete] removes it).
    - [Date] values are milliseconds ([Z]); the current time is an argument.
    - [uuidv4()] is a supply of fresh identifiers, a counter in the state.
    - Exceptions are the [Throw] outcome; gRPC errors are status codes. *)

From Stdlib Require Import String Ascii List Bool ZArith Lia Sorting.Sorted Sorting.Permutation.
Import ListNotations.
Open Scope string_scope.

(* ------------------------------------------------------------------ *)
(** ** Strings: the JS string operations used for subscription keys *)

Fixpoint str_has (c : ascii) (s : string) : bool :=
  match s with
  | EmptyString => false
  | String x r => Ascii.eqb x c || str_has c r
  end.

(** [s.split(c)] for a one-character separator. *)
Fixpoint js_split (c : ascii) (s : string) : list string :=
  match s with
  | EmptyString => [EmptyString]
  | String x r =>
      let parts := js_split c r in
      if Ascii.eqb x c then EmptyString :: parts
      else match parts with
           | p :: ps => String x p :: ps
           | [] => [String x EmptyString]
           end
  end.

(** [xs.join(sep)]. *)
Fixpoint js_join (sep : string) (xs : list string) : string :=
  match xs with
  | [] => EmptyString
  | [x] => x
  | x :: r => x ++ sep ++ js_join sep r
  end.

(** JS truthiness of a string: only [""] is falsy. *)
Definition str_truthy (s : string) : bool :=
  match s with EmptyString => false | _ => true end.

(** [uuidv4()] produces lower-case hexadecimal digits and dashes; the
    user identifiers ([createUser]) and task identifiers ([createTask]) are
    such strings. *)
Definition uuid_char (c : ascii) : bool :=
  str_has c "0123456789abcdef-".

Fixpoint uuid_shaped (s : string) : bool :=
  match s with
  | EmptyString => true
  | String x r => uuid_char x && uuid_shaped r
  end.

(** Decimal rendering of the identifier counter (digits are hex digits). *)
Fixpoint digits_aux (fuel n : nat) (acc : string) : string :=
  match fuel with
  | O => acc
  | S f =>
      let d := ascii_of_nat (48 + Nat.modulo n 10) in
      let q := Nat.div n 10 in
      if Nat.eqb q 0 then String d acc else digits_aux f q (String d acc)
  end.

Definition uuid_of (n : nat) : string := digits_aux (S n) n EmptyString.

(* ------------------------------------------------------------------ *)
(** ** Data model (types/index.ts) *)

Inductive TaskStatus := PENDING | IN_PROGRESS | COMPLETED | CANCELLED.
Inductive TaskPriority := LOW | MEDIUM | HIGH | URGENT.
Inductive UpdateType := CREATED | UPDATED | DELETED.

Definition TaskStatus_eqb (a b : TaskStatus) : bool :=
  match a, b with
  | PENDING, PENDING | IN_PROGRESS, IN_PROGRESS
  | COMPLETED, COMPLETED | CANCELLED, CANCELLED => true
  | _, _ => false
  end.

Definition TaskPriority_eqb (a b : TaskPriority) : bool :=
  match a, b with
  | LOW, LOW | MEDIUM, MEDIUM | HIGH, HIGH | URGENT, URGENT => true
  | _, _ => false
  end.

Record Task := mkTask {
  id : string;
  title : string;
  description : string;
  status : TaskStatus;
  priority : TaskPriority;
  assignee_id : string;
  created_at : Z;
  updated_at : Z;
  due_date : option Z;
  tags : list string
}.

(** [Omit<Task, 'id' | 'created_at' | 'updated_at'>], the argument of
    [createTask]. *)
Record TaskData := mkTaskData {
  d_title : string;
  d_description : string;
  d_status : TaskStatus;
  d_priority : TaskPriority;
  d_assignee_id : string;
  d_due_date : option Z;
  d_tags : list string
}.

(** [Partial<Omit<Task, 'id' | 'created_at'>>] as built by [UpdateTask]:
    a field is present exactly when it is [Some]. *)
Record TaskUpdates := mkTaskUpdates {
  u_title : option string;
  u_description : option string;
  u_status : option TaskStatus;
  u_priority : option TaskPriority;
  u_assignee_id : option string;
  u_due_date : option Z;
  u_tags : option (list string)
}.

Record TaskUpdate := mkTaskUpdate {
  up_type : UpdateType;
  up_task : Task;
  up_timestamp : Z
}.

(* ------------------------------------------------------------------ *)
(** ** Insertion-ordered maps (JS [Map]) *)

Section AssocMap.
Context {V : Type}.

Fixpoint map_get (k : string) (m : list (string * V)) : option V :=
  match m with
  | [] => None
  | (k', v) :: r => if String.eqb k k' then Some v else map_get k r
  end.

Fixpoint map_set (k : string) (v : V) (m : list (string * V))
  : list (string * V) :=
  match m with
  | [] => [(k, v)]
  | (k', v') :: r =>
      if String.eqb k k' then (k', v) :: r else (k', v') :: map_set k v r
  end.

Definition map_delete (k : string) (m : list (string * V))
  : list (string * V) :=
  filter (fun kv => negb (String.eqb k (fst kv))) m.

Definition map_values (m : list (string * V)) : list V := map snd m.
End AssocMap.

(* ------------------------------------------------------------------ *)
(** ** Subscription callbacks and the registry *)

(** A callback registered with [subscribeToTaskUpdates].  [Session s] is the
    closure created by [SubscribeTaskUpdates] for the stream [s]: it calls
    [call.write(update)] inside a try/catch.  [Raw n throws] is any other
    callback (the data store tests register such ones); [throws] tells
    whether invoking it raises. *)
Inductive callback :=
  | Session (stream : nat)
  | Raw (cid : nat) (throws : bool).

Definition callback_eq_dec (a b : callback) : {a = b} + {a <> b}.
Proof. decide equality; first [apply Bool.bool_dec | apply Nat.eq_dec]. Defined.

Definition callback_eqb (a b : callback) : bool :=
  if callback_eq_dec a b then true else false.

(** [taskUpdateSubscribers : Map<string, Set<callback>>]. *)
Definition registry := list (string * list callback).

(** [Set.add]: appends unless already present. *)
Definition set_add (cb : callback) (s : list callback) : list callback :=
  if existsb (callback_eqb cb) s then s else s ++ [cb].

(** [Set.delete]. *)
Definition set_delete (cb : callback) (s : list callback) : list callback :=
  filter (fun c => negb (callback_eqb cb c)) s.

(** [const key = taskIds ? `${userId}:${taskIds.join(',')}` : userId]
    (an array, even empty, is truthy). *)
Definition sub_key (userId : string) (taskIds : option (list string)) : string :=
  match taskIds with
  | Some ids => userId ++ ":" ++ js_join "," ids
  | None => userId
  end.

(** The registration part of [subscribeToTaskUpdates]. *)
Definition subscribe (userId : string) (cb : callback)
    (taskIds : option (list string)) (r : registry) : registry :=
  let key := sub_key userId taskIds in
  let r1 := match map_get key r with
            | Some _ => r
            | None => map_set key [] r
            end in
  match map_get key r1 with
  | Some s => map_set key (set_add cb s) r1
  | None => r1
  end.

(** The returned unsubscribe closure, for the [key] and [callback] it
    captured. *)
Definition unsubscribe (key : string) (cb : callback) (r : registry) : registry :=
  match map_get key r with
  | Some subscribers =>
      let s' := set_delete cb subscribers in
      let r1 := map_set key s' r in
      if Nat.eqb (length s') 0 then map_delete key r1 else r1
  | None => r
  end.

(** The filter test of [notifyTaskUpdate] for one registry key. *)
Definition key_matches (key : string) (taskId : string) : bool :=
  if negb (str_has ":" key) then true
  else match nth_error (js_split ":" key) 1 with
       | Some taskIds =>
           str_truthy taskIds
           && existsb (String.eqb taskId) (js_split "," taskIds)
       | None => false
       end.

(* ------------------------------------------------------------------ *)
(** ** The data store *)

Record Store := mkStore {
  tasks : list (string * Task);
  taskUpdateSubscribers : registry;
  next_uuid : nat;
  (** every [call.write] that went through, per stream, in order *)
  written : list (nat * TaskUpdate)
}.

Inductive Outcome (A : Type) := Ret (a : A) | Throw.
Arguments Ret {A} a.
Arguments Throw {A}.

(** What one broadcast did: the callbacks invoked, in order, the stream
    writes that succeeded, and whether an exception escaped. *)
Record Broadcast := mkBroadcast {
  invoked : list callback;
  writes : list (nat * TaskUpdate);
  thrown : bool
}.

Section Server.

(** [write_fails s]: [call.write] on stream [s] raises (broken stream). *)
Variable write_fails : nat -> bool.

(** Invoking one callback: the writes it performed and whether it raised.
    The session closure is
    [try { call.write(update) } catch (error) { logger.error(...) }]. *)
Definition run_callback (u : TaskUpdate) (cb : callback)
    : list (nat * TaskUpdate) * bool :=
  match cb with
  | Session s => if write_fails s then ([], false) else ([(s, u)], false)
  | Raw _ throws => ([], throws)
  end.

(** [subscribers.forEach(callback => callback(update))]; an exception
    leaves the loop. *)
Fixpoint deliver_set (u : TaskUpdate) (cbs : list callback) : Broadcast :=
  match cbs with
  | [] => mkBroadcast [] [] false
  | cb :: r =>
      let '(w, t) := run_callback u cb in
      if t then mkBroadcast [cb] w true
      else let b := deliver_set u r in
           mkBroadcast (cb :: invoked b) (w ++ writes b) (thrown b)
  end.

(** The [for ... of this.taskUpdateSubscribers.entries()] loop of
    [notifyTaskUpdate]. *)
Fixpoint notify_entries (u : TaskUpdate) (entries : registry) : Broadcast :=
  match entries with
  | [] => mkBroadcast [] [] false
  | (key, subscribers) :: r =>
      let b := if key_matches key (id (up_task u))
               then deliver_set u subscribers
               else mkBroadcast [] [] false in
      if thrown b then b
      else let b' := notify_entries u r in
           mkBroadcast (invoked b ++ invoked b') (writes b ++ writes b')
                       (thrown b')
  end.

Definition notify_run (now : Z) (ty : UpdateType) (task : Task) (st : Store)
    : Broadcast :=
  notify_entries (mkTaskUpdate ty task now) (taskUpdateSubscribers st).

(** [notifyTaskUpdate(type, task)]: the writes are recorded; the registry is
    left as it is. *)
Definition notifyTaskUpdate (now : Z) (ty : UpdateType) (task : Task)
    (st : Store) : Store * bool :=
  let b := notify_run now ty task st in
  (mkStore (tasks st) (taskUpdateSubscribers st) (next_uuid st)
           (written st ++ writes b), thrown b).

Definition createTask (now : Z) (data : TaskData) (st : Store)
    : Outcome Task * Store :=
  let t := mkTask (uuid_of (next_uuid st)) (d_title data) (d_description data)
             (d_status data) (d_priority data) (d_assignee_id data) now now
             (d_due_date data) (d_tags data) in
  let st1 := mkStore (map_set (id t) t (tasks st)) (taskUpdateSubscribers st)
                     (S (next_uuid st)) (written st) in
  let '(st2, exn) := notifyTaskUpdate now CREATED t st1 in
  if exn then (Throw, st2) else (Ret t, st2).

Definition getTask (i : string) (st : Store) : option Task := map_get i (tasks st).

(** [{ ...task, ...updates, id: task.id, created_at: task.created_at,
    updated_at: new Date() }] *)
Definition merge_task (now : Z) (task : Task) (u : TaskUpdates) : Task :=
  mkTask (id task)
    (match u_title u with Some v => v | None => title task end)
    (match u_description u with Some v => v | None => description task end)
    (match u_status u with Some v => v | None => status task end)
    (match u_priority u with Some v => v | None => priority task end)
    (match u_assignee_id u with Some v => v | None => assignee_id task end)
    (created_at task)
    now
    (match u_due_date u with Some v => Some v | None => due_date task end)
    (match u_tags u with Some v => v | None => tags task end).

Definition updateTask (now : Z) (i : string) (u : TaskUpdates) (st : Store)
    : Outcome (option Task) * Store :=
  match map_get i (tasks st) with
  | None => (Ret None, st)
  | Some task =>
      let t' := merge_task now task u in
      let st1 := mkStore (map_set i t' (tasks st)) (taskUpdateSubscribers st)
                         (next_uuid st) (written st) in
      let '(st2, exn) := notifyTaskUpdate now UPDATED t' st1 in
      if exn then (Throw, st2) else (Ret (Some t'), st2)
  end.

Definition deleteTask (now : Z) (i : string) (st : Store)
    : Outcome bool * Store :=
  match map_get i (tasks st) with
  | None => (Ret false, st)
  | Some task =>
      let st1 := mkStore (map_delete i (tasks st)) (taskUpdateSubscribers st)
                         (next_uuid st) (written st) in
      let '(st2, exn) := notifyTaskUpdate now DELETED task st1 in
      if exn then (Throw, st2) else (Ret true, st2)
  end.

End Server.

(* ------------------------------------------------------------------ *)
(** ** [listTasks] *)

(** The filter argument of [listTasks] (also the shape of
    [ListTasksRequest]).  [page] and [page_size] are JS numbers (integers). *)
Record ListTasksRequest := mkListTasksRequest {
  page : Z;
  page_size : Z;
  status_filter : option TaskStatus;
  priority_filter : option TaskPriority;
  assignee_filter : option string
}.

Record ListTasksResponse := mkListTasksResponse {
  lr_tasks : list Task;
  total_count : Z;
  lr_page : Z;
  lr_page_size : Z
}.

(** The comparator [(a, b) => b.created_at.getTime() - a.created_at.getTime()]. *)
Definition created_desc_cmp (a b : Task) : Z := (created_at b - created_at a)%Z.

(** [Array.prototype.sort] is a stable sort (ES2019): an element moves
    behind a later one only when the comparator is positive. *)
Fixpoint sort_insert (x : Task) (l : list Task) : list Task :=
  match l with
  | [] => [x]
  | y :: ys => if Z.gtb (created_desc_cmp x y) 0 then y :: sort_insert x ys
               else x :: y :: ys
  end.

Fixpoint js_sort (l : list Task) : list Task :=
  match l with
  | [] => []
  | x :: r => sort_insert x (js_sort r)
  end.

(** [Array.prototype.slice(start, end)]: negative indices count from the end. *)
Definition slice_index (i len : Z) : Z :=
  (if Z.ltb i 0 then Z.max (len + i) 0 else Z.min i len)%Z.

Definition js_slice {A} (l : list A) (s e : Z) : list A :=
  let len := Z.of_nat (length l) in
  let k := slice_index s len in
  let fin := slice_index e len in
  firstn (Z.to_nat (fin - k)%Z) (skipn (Z.to_nat k) l).

Definition status_ok (f : ListTasksRequest) (t : Task) : bool :=
  match status_filter f with
  | Some s => TaskStatus_eqb (status t) s
  | None => true
  end.

Definition priority_ok (f : ListTasksRequest) (t : Task) : bool :=
  match priority_filter f with
  | Some p => TaskPriority_eqb (priority t) p
  | None => true
  end.

(** [if (filter.assignee_filter)]: the empty string does not filter. *)
Definition assignee_ok (f : ListTasksRequest) (t : Task) : bool :=
  match assignee_filter f with
  | Some a => if str_truthy a then String.eqb (assignee_id t) a else true
  | None => true
  end.

Definition filtered_tasks (f : ListTasksRequest) (st : Store) : list Task :=
  let all := map_values (tasks st) in
  let l1 := filter (status_ok f) all in
  let l2 := filter (priority_ok f) l1 in
  filter (assignee_ok f) l2.

Definition sorted_tasks (f : ListTasksRequest) (st : Store) : list Task :=
  js_sort (filtered_tasks f st).

Definition listTasks (f : ListTasksRequest) (st : Store) : ListTasksResponse :=
  let sorted := sorted_tasks f st in
  let totalCount := Z.of_nat (length sorted) in
  let startIndex := ((page f - 1) * page_size f)%Z in
  let endIndex := (startIndex + page_size f)%Z in
  mkListTasksResponse (js_slice sorted startIndex endIndex) totalCount
                      (page f) (page_size f).

(* ------------------------------------------------------------------ *)
(** ** Authentication (middleware/auth.ts) *)

Record JWTPayload := mkJWTPayload { user_id : string; username : string }.

(** gRPC metadata: (lower-cased key, value) pairs; [metadata.get(k)] is the
    array of the values under [k]. *)
Definition Metadata := list (string * string).

Definition metadata_get (k : string) (md : Metadata) : list string :=
  map snd (filter (fun kv => String.eqb (fst kv) k) md).

Definition extractTokenFromMetadata (md : Metadata) : option string :=
  match metadata_get "authorization" md with
  | [] => None
  | token :: _ =>
      if String.prefix "Bearer " token
      then Some (substring 7 (String.length token - 7) token)
      else Some token
  end.

Inductive GrpcCode := UNAUTHENTICATED | INVALID_ARGUMENT | NOT_FOUND | INTERNAL.

Inductive Reply (A : Type) := Ok (a : A) | Err (c : GrpcCode).
Arguments Ok {A} a.
Arguments Err {A} c.

Section Handlers.

Variable write_fails : nat -> bool.
(** [AuthService.verifyToken]: JWT verification, external to this model. *)
Variable verifyToken : string -> option JWTPayload.

Definition authenticateCall (md : Metadata) : option JWTPayload :=
  match extractTokenFromMetadata md with
  | Some token => if str_truthy token then verifyToken token else None
  | None => None
  end.

(** [CreateTaskRequest] as decoded: [priority] and [tags] may be absent. *)
Record CreateTaskRequest := mkCreateTaskRequest {
  c_title : string;
  c_description : string;
  c_priority : option TaskPriority;
  c_assignee_id : string;
  c_due_date : option Z;
  c_tags : option (list string)
}.

Definition CreateTask (now : Z) (md : Metadata) (request : CreateTaskRequest)
    (st : Store) : Reply Task * Store :=
  match authenticateCall md with
  | None => (Err UNAUTHENTICATED, st)
  | Some user =>
      if negb (str_truthy (c_title request))
         || negb (str_truthy (c_description request))
      then (Err INVALID_ARGUMENT, st)
      else
        let data := mkTaskData (c_title request) (c_description request)
          PENDING
          (match c_priority request with Some p => p | None => MEDIUM end)
          (if str_truthy (c_assignee_id request) then c_assignee_id request
           else user_id user)
          (c_due_date request)
          (match c_tags request with Some l => l | None => [] end) in
        match createTask write_fails now data st with
        | (Ret task, st') => (Ok task, st')
        | (Throw, st') => (Err INTERNAL, st')
        end
  end.

Definition ListTasks (md : Metadata) (request : ListTasksRequest) (st : Store)
    : Reply ListTasksResponse :=
  match authenticateCall md with
  | None => Err UNAUTHENTICATED
  | Some _ =>
      let pg := if Z.eqb (page request) 0 then 1%Z else page request in
      let pageSize :=
        Z.min (if Z.eqb (page_size request) 0 then 10%Z else page_size request)
              100 in
      Ok (listTasks (mkListTasksRequest pg pageSize (status_filter request)
                       (priority_filter request) (assignee_filter request)) st)
  end.

Record SubscribeTaskUpdatesRequest := mkSubscribeRequest {
  s_user_id : string;
  task_ids : option (list string)
}.

(** The confirmation message written right after subscribing. *)
Definition connection_update (now : Z) (user : JWTPayload) : TaskUpdate :=
  mkTaskUpdate CREATED
    (mkTask "connection" "Streaming connection established"
       "You are now subscribed to task updates" COMPLETED LOW (user_id user)
       now now None ["system"])
    now.

(** [SubscribeTaskUpdates] on the stream [stream].  When the final
    [call.write] raises, the outer catch emits an INTERNAL error, which runs
    the [call.on('error')] listener registered just before: it unsubscribes. *)
Definition SubscribeTaskUpdates (now : Z) (md : Metadata)
    (request : SubscribeTaskUpdatesRequest) (stream : nat) (st : Store)
    : Reply unit * Store :=
  match authenticateCall md with
  | None => (Err UNAUTHENTICATED, st)
  | Some user =>
      let subs := subscribe (user_id user) (Session stream) (task_ids request)
                    (taskUpdateSubscribers st) in
      if write_fails stream then
        (Err INTERNAL,
         mkStore (tasks st)
           (unsubscribe (sub_key (user_id user) (task_ids request))
              (Session stream) subs)
           (next_uuid st) (written st))
      else
        (Ok tt, mkStore (tasks st) subs (next_uuid st)
                  (written st ++ [(stream, connection_update now user)]))
  end.

End Handlers.

(* ------------------------------------------------------------------ *)
(** ** Predicates on the registry *)

(** A callback that does not raise when invoked: a stream session (its
    closure catches write errors) or a non-raising raw callback. *)
Definition cb_safe (cb : callback) : bool :=
  match cb with
  | Session _ => true
  | Raw _ throws => negb throws
  end.

Definition registry_safe (r : registry) : bool :=
  forallb (fun e => forallb cb_safe (snd e)) r.

(** The callbacks of the entries whose key matches [taskId], in iteration
    order. *)
Definition matching_callbacks (r : registry) (taskId : string) : list callback :=
  flat_map (fun e => if key_matches (fst e) taskId then snd e else []) r.

(** A list of callbacks run in order until one raises: the callbacks
    invoked, the raising one included. *)
Fixpoint upto_raise (l : list callback) : list callback :=
  match l with
  | [] => []
  | cb :: r => if cb_safe cb then cb :: upto_raise r else [cb]
  end.

(** The seeding burst as the spec words it: one CREATED snapshot per
    record currently matching the subscription key. *)
Definition spec_seeding_burst (now : Z) (key : string) (st : Store)
    : list TaskUpdate :=
  map (fun t => mkTaskUpdate CREATED t now)
      (filter (fun t => key_matches key (id t)) (map_values (tasks st))).

(** The writes recorded for one stream. *)
Definition stream_writes (s : nat) (st : Store) : list TaskUpdate :=
  map snd (filter (fun w => Nat.eqb (fst w) s) (written st)).

(* ------------------------------------------------------------------ *)
(** ** Concrete inputs *)

Definition demo_user : JWTPayload := mkJWTPayload "7f3a-01" "admin".

(** A token verifier accepting exactly the token "tok". *)
Definition demo_verify (token : string) : option JWTPayload :=
  if String.eqb token "tok" then Some demo_user else None.

Definition demo_md : Metadata := [("authorization", "Bearer tok")].

Definition no_write_fails (s : nat) : bool := false.

Definition mk_demo_task (i : string) (c : Z) : Task :=
  mkTask i "task" "demo" PENDING MEDIUM "7f3a-01" c c None [].

Definition empty_store : Store := mkStore [] [] 0 [].

Definition two_task_store : Store :=
  mkStore [("a1", mk_demo_task "a1" 5); ("b2", mk_demo_task "b2" 7)] [] 2 [].

(** [n] tasks with distinct identifiers and creation times. *)
Definition many_tasks_store (n : nat) : Store :=
  mkStore (map (fun k => (uuid_of k, mk_demo_task (uuid_of k) (Z.of_nat k)))
               (seq 0 n)) [] n [].

Definition demo_task_data : TaskData :=
  mkTaskData "task" "demo" PENDING MEDIUM "7f3a-01" None [].

(** Two stores holding the same two records, created in the same
    millisecond, inserted in opposite orders. *)
Definition tie_store_ab : Store :=
  mkStore [("a1", mk_demo_task "a1" 5); ("b2", mk_demo_task "b2" 5)] [] 2 [].

Definition tie_store_ba : Store :=
  mkStore [("b2", mk_demo_task "b2" 5); ("a1", mk_demo_task "a1" 5)] [] 2 [].

Definition first_page : ListTasksRequest := mkListTasksRequest 1 10 None None None.

(** A registry whose first callback raises. *)
Definition raising_store : Store :=
  mkStore [] [("7f3a-01", [Raw 1 true; Raw 2 false])] 0 [].

(** A field of the merged record: the update's value when present, the old
    value otherwise. *)
Definition merged {A} (o : option A) (old new : A) : Prop :=
  match o with Some v => new = v | None => new = old end.

(* ------------------------------------------------------------------ *)
(** ** The other task handlers (TaskServiceImpl) *)

Section MoreHandlers.

Variable write_fails : nat -> bool.
Variable verifyToken : string -> option JWTPayload.

Definition GetTask (md : Metadata) (reqId : string) (st : Store) : Reply Task :=
  match authenticateCall verifyToken md with
  | None => Err UNAUTHENTICATED
  | Some _ =>
      match getTask reqId st with
      | None => Err NOT_FOUND
      | Some task => Ok task
      end
  end.

(** [UpdateTaskRequest]: the optional fields are [Some] when not
    [undefined]. *)
Record UpdateTaskRequest := mkUpdateTaskRequest {
  ur_id : string;
  ur_title : option string;
  ur_description : option string;
  ur_status : option TaskStatus;
  ur_priority : option TaskPriority;
  ur_assignee_id : option string;
  ur_due_date : option Z;
  ur_tags : option (list string)
}.

(** [const updates: any = {}; if (request.title !== undefined) ...] *)
Definition build_updates (request : UpdateTaskRequest) : TaskUpdates :=
  mkTaskUpdates (ur_title request) (ur_description request) (ur_status request)
    (ur_priority request) (ur_assignee_id request) (ur_due_date request)
    (ur_tags request).

Definition UpdateTask (now : Z) (md : Metadata) (request : UpdateTaskRequest)
    (st : Store) : Reply Task * Store :=
  match authenticateCall verifyToken md with
  | None => (Err UNAUTHENTICATED, st)
  | Some _ =>
      match getTask (ur_id request) st with
      | None => (Err NOT_FOUND, st)
      | Some _ =>
          match updateTask write_fails now (ur_id request) (build_updates request) st with
          | (Throw, st') => (Err INTERNAL, st')
          | (Ret None, st') => (Err INTERNAL, st')
          | (Ret (Some t), st') => (Ok t, st')
          end
      end
  end.

Definition DeleteTask (now : Z) (md : Metadata) (reqId : string) (st : Store)
    : Reply unit * Store :=
  match authenticateCall verifyToken md with
  | None => (Err UNAUTHENTICATED, st)
  | Some _ =>
      match deleteTask write_fails now reqId st with
      | (Throw, st') => (Err INTERNAL, st')
      | (Ret false, st') => (Err NOT_FOUND, st')
      | (Ret true, st') => (Ok tt, st')
      end
  end.

End MoreHandlers.

(* ------------------------------------------------------------------ *)
(** ** Users (DataStore user operations, AuthService, AuthServiceImpl) *)

Record User := mkUser {
  usr_id : string;
  usr_username : string;
  usr_email : string;
  usr_full_name : string;
  usr_created_at : Z
}.

(** [users : Map<string, User & { password: string }>]: a user and its
    password hash. *)
Definition UserStore := list (string * (User * string)).

(** [createUser(userData)]: [{ ...userData, id: uuidv4(), created_at: new
    Date() }] is stored; the copy without password is returned.  [fresh] is
    the value [uuidv4()] returned. *)
Definition createUser (fresh : string) (now : Z) (userData : User)
    (password : string) (us : UserStore) : User * UserStore :=
  let user := mkUser fresh (usr_username userData) (usr_email userData)
                (usr_full_name userData) now in
  (user, map_set fresh (user, password) us).

Definition getUserByUsername (name : string) (us : UserStore)
    : option (User * string) :=
  find (fun su => String.eqb (usr_username (fst su)) name) (map_values us).

Definition getUserById (i : string) (us : UserStore) : option User :=
  match map_get i us with
  | Some (u, _) => Some u
  | None => None
  end.

Inductive AuthCode := A_INVALID_ARGUMENT | A_UNAUTHENTICATED | A_ALREADY_EXISTS.

Inductive AuthReply (A : Type) := AOk (a : A) | AErr (c : AuthCode).
Arguments AOk {A} a.
Arguments AErr {A} c.

Record CreateUserRequest := mkCreateUserRequest {
  cu_username : string;
  cu_password : string;
  cu_email : string;
  cu_full_name : string
}.

Record LoginResponse := mkLoginResponse {
  access_token : string;
  refresh_token : string;
  expires_at : Z
}.

Section AuthServer.

(** bcrypt and JWT signing, external to this model. *)
Variable hashPassword : string -> string.
Variable comparePassword : string -> string -> bool.
Variable generateTokens : User -> LoginResponse.

(** [CreateUser] up to its [await AuthService.hashPassword(...)]: the field
    validation and the duplicate check ([None]: go on). *)
Definition CreateUser_check (request : CreateUserRequest) (us : UserStore)
    : option AuthCode :=
  if negb (str_truthy (cu_username request)) || negb (str_truthy (cu_password request))
     || negb (str_truthy (cu_email request)) || negb (str_truthy (cu_full_name request))
  then Some A_INVALID_ARGUMENT
  else match getUserByUsername (cu_username request) us with
       | Some _ => Some A_ALREADY_EXISTS
       | None => None
       end.

(** [CreateUser] after the [await]: the user is created in the store as it
    is at that point. *)
Definition CreateUser_commit (fresh : string) (now : Z) (request : CreateUserRequest)
    (us : UserStore) : User * UserStore :=
  createUser fresh now
    (mkUser "" (cu_username request) (cu_email request) (cu_full_name request) now)
    (hashPassword (cu_password request)) us.

(** A [CreateUser] call that no other call interleaves with. *)
Definition CreateUser (fresh : string) (now : Z) (request : CreateUserRequest)
    (us : UserStore) : AuthReply User * UserStore :=
  match CreateUser_check request us with
  | Some c => (AErr c, us)
  | None => let '(u, us') := CreateUser_commit fresh now request us in (AOk u, us')
  end.

(** [AuthService.login]. *)
Definition login (username password : string) (us : UserStore)
    : option LoginResponse :=
  match getUserByUsername username us with
  | None => None
  | Some (u, hash) =>
      if comparePassword password hash then Some (generateTokens u) else None
  end.

Definition Login (username password : string) (us : UserStore)
    : AuthReply LoginResponse :=
  if negb (str_truthy username) || negb (str_truthy password)
  then AErr A_INVALID_ARGUMENT
  else match login username password us with
       | None => AErr A_UNAUTHENTICATED
       | Some r => AOk r
       end.

End AuthServer.

(** Registry shape kept by [subscribe]/[unsubscribe]: distinct keys and no
    empty subscriber set. *)
Definition registry_wf (r : registry) : Prop :=
  NoDup (map fst r) /\ Forall (fun e => snd e <> []) r.

(* ================================================================== *)
(** * Lemmas *)

Section MapLemmas.
Context {V : Type}.

Lemma map_get_set_same (k : string) (v : V) (m : list (string * V)) :
  map_get k (map_set k v m) = Some v.
Proof.
  induction m as [|[k' v'] r IH]; simpl.
  - now rewrite String.eqb_refl.
  - destruct (String.eqb k k') eqn:E; simpl.
    + now rewrite E.
    + now rewrite E.
Qed.

Lemma map_set_set (k : string) (v w : V) (m : list (string * V)) :
  map_set k v (map_set k w m) = map_set k v m.
Proof.
  induction m as [|[k' v'] r IH]; simpl.
  - now rewrite String.eqb_refl.
  - destruct (String.eqb k k') eqn:E; simpl; rewrite E; [reflexivity|].
    now rewrite IH.
Qed.

Lemma map_get_delete_same (k : string) (m : list (string * V)) :
  map_get k (map_delete k m) = None.
Proof.
  unfold map_delete.
  induction m as [|[k' v'] r IH]; simpl; [reflexivity|].
  destruct (String.eqb k k') eqn:E; simpl; [exact IH|].
  now rewrite E.
Qed.

Lemma map_get_values (k : string) (v : V) (m : list (string * V)) :
  map_get k m = Some v -> In v (map_values m).
Proof.
  unfold map_values.
  induction m as [|[k' v'] r IH]; simpl; [discriminate|].
  destruct (String.eqb k k'); [intros H; inversion H; now left|].
  intros H; right; auto.
Qed.
End MapLemmas.

Lemma callback_eqb_refl (cb : callback) : callback_eqb cb cb = true.
Proof. unfold callback_eqb; destruct (callback_eq_dec cb cb); congruence. Qed.

Lemma callback_eqb_true (a b : callback) : callback_eqb a b = true -> a = b.
Proof. unfold callback_eqb; destruct (callback_eq_dec a b); congruence. Qed.

Lemma set_delete_idem (cb : callback) (s : list callback) :
  set_delete cb (set_delete cb s) = set_delete cb s.
Proof.
  unfold set_delete.
  induction s as [|c r IH]; simpl; [reflexivity|].
  destruct (negb (callback_eqb cb c)) eqn:E; simpl; [rewrite E; now f_equal|exact IH].
Qed.

Lemma set_delete_not_in (cb : callback) (s : list callback) :
  ~ In cb (set_delete cb s).
Proof.
  unfold set_delete; rewrite filter_In; intros [_ H].
  now rewrite callback_eqb_refl in H.
Qed.

Lemma unsubscribe_idem (key : string) (cb : callback) (r : registry) :
  unsubscribe key cb (unsubscribe key cb r) = unsubscribe key cb r.
Proof.
  unfold unsubscribe at 2 3.
  destruct (map_get key r) as [s|] eqn:Hget; [|unfold unsubscribe; now rewrite Hget].
  destruct (Nat.eqb (length (set_delete cb s)) 0) eqn:Hlen.
  - unfold unsubscribe; now rewrite map_get_delete_same.
  - unfold unsubscribe. rewrite map_get_set_same, set_delete_idem, Hlen.
    now rewrite map_set_set.
Qed.

Lemma unsubscribe_iter (n : nat) (key : string) (cb : callback) (r : registry) :
  Nat.iter n (unsubscribe key cb) (unsubscribe key cb r) = unsubscribe key cb r.
Proof.
  induction n as [|n IH]; simpl; [reflexivity|].
  rewrite IH. apply unsubscribe_idem.
Qed.

(** [cb] occurs in no set of the registry except possibly the first entry
    with key [key]. *)
Fixpoint only_at_key (cb : callback) (key : string) (r : registry) : Prop :=
  match r with
  | [] => True
  | (k, s) :: rest =>
      if String.eqb key k then (forall k' s', In (k', s') rest -> ~ In cb s')
      else ~ In cb s /\ only_at_key cb key rest
  end.

Lemma fresh_only_at_key (cb : callback) (key : string) (r : registry) :
  (forall k s, In (k, s) r -> ~ In cb s) -> only_at_key cb key r.
Proof.
  induction r as [|[k s] rest IH]; simpl; intros Hf; [exact I|].
  destruct (String.eqb key k).
  - intros k' s' Hin; eapply Hf; right; exact Hin.
  - split; [eapply Hf; left; reflexivity|].
    apply IH; intros k' s' Hin; eapply Hf; right; exact Hin.
Qed.

Lemma only_at_key_set (cb : callback) (key : string) (v : list callback)
    (r : registry) :
  only_at_key cb key r -> only_at_key cb key (map_set key v r).
Proof.
  induction r as [|[k s] rest IH]; simpl; intros H.
  - rewrite String.eqb_refl; intros k' s' [].
  - destruct (String.eqb key k) eqn:E; simpl; rewrite E; [exact H|].
    destruct H as [H1 H2]; split; [exact H1|]. apply IH; exact H2.
Qed.

Lemma only_at_key_set_clean (cb : callback) (key : string) (v : list callback)
    (r : registry) :
  only_at_key cb key r -> ~ In cb v ->
  forall k s, In (k, s) (map_set key v r) -> ~ In cb s.
Proof.
  induction r as [|[k0 s0] rest IH]; simpl; intros H Hv k s Hin.
  - destruct Hin as [Heq|[]]; inversion Heq; subst; exact Hv.
  - destruct (String.eqb key k0) eqn:E.
    + destruct Hin as [Heq|Hin]; [inversion Heq; subst; exact Hv|].
      eapply H; exact Hin.
    + destruct H as [H1 H2]. destruct Hin as [Heq|Hin].
      * inversion Heq; subst; exact H1.
      * eapply IH; eauto.
Qed.

Lemma in_map_delete {V} (key k : string) (s : V) (r : list (string * V)) :
  In (k, s) (map_delete key r) -> In (k, s) r.
Proof. unfold map_delete; rewrite filter_In; tauto. Qed.

Lemma subscribe_only_at_key (userId : string) (cb : callback)
    (taskIds : option (list string)) (r : registry) :
  only_at_key cb (sub_key userId taskIds) r ->
  only_at_key cb (sub_key userId taskIds) (subscribe userId cb taskIds r).
Proof.
  intros H; unfold subscribe.
  destruct (map_get (sub_key userId taskIds) r) eqn:E.
  - rewrite E. now apply only_at_key_set.
  - rewrite map_get_set_same. apply only_at_key_set, only_at_key_set, H.
Qed.

Lemma subscribe_get (userId : string) (cb : callback)
    (taskIds : option (list string)) (r : registry) :
  exists s, map_get (sub_key userId taskIds) (subscribe userId cb taskIds r) = Some s.
Proof.
  unfold subscribe.
  destruct (map_get (sub_key userId taskIds) r) eqn:E.
  - rewrite E, map_get_set_same; eauto.
  - rewrite map_get_set_same, map_get_set_same; eauto.
Qed.

(** After [unsubscribe], a callback that only sat in the first entry of its
    key is in no set at all. *)
Lemma unsubscribe_clears (cb : callback) (key : string) (r : registry) :
  only_at_key cb key r -> (exists s, map_get key r = Some s) ->
  forall k s, In (k, s) (unsubscribe key cb r) -> ~ In cb s.
Proof.
  intros H [s0 Hget] k s Hin. unfold unsubscribe in Hin; rewrite Hget in Hin.
  assert (Hclean := only_at_key_set_clean cb key (set_delete cb s0) r H
                      (set_delete_not_in cb s0)).
  destruct (Nat.eqb (length (set_delete cb s0)) 0).
  - apply in_map_delete in Hin. eapply Hclean; exact Hin.
  - eapply Hclean; exact Hin.
Qed.

(* ------------------------------------------------------------------ *)
(** ** Broadcast *)

Lemma upto_raise_app (s l : list callback) :
  upto_raise (s ++ l) = if forallb cb_safe s then (s ++ upto_raise l)%list else upto_raise s.
Proof.
  induction s as [|c s IH]; [reflexivity|]. cbn.
  destruct (cb_safe c); cbn; [rewrite IH; now destruct (forallb cb_safe s)|reflexivity].
Qed.

Lemma upto_raise_safe (s : list callback) : forallb cb_safe s = true -> upto_raise s = s.
Proof.
  intros H. rewrite <- (app_nil_r s) at 1. rewrite upto_raise_app, H. apply app_nil_r.
Qed.

Lemma deliver_set_general (wf : nat -> bool) (u : TaskUpdate) (s : list callback) :
  invoked (deliver_set wf u s) = upto_raise s /\
  thrown (deliver_set wf u s) = negb (forallb cb_safe s).
Proof.
  induction s as [|c r [IH1 IH2]]; [auto|].
  destruct c as [st|n t]; cbn.
  - destruct (wf st); cbn; rewrite IH1, IH2; auto.
  - destruct t; cbn; [auto|rewrite IH1, IH2; auto].
Qed.

Lemma notify_general (wf : nat -> bool) (u : TaskUpdate) (r : registry) :
  invoked (notify_entries wf u r) = upto_raise (matching_callbacks r (id (up_task u))) /\
  thrown (notify_entries wf u r) = negb (forallb cb_safe (matching_callbacks r (id (up_task u)))).
Proof.
  unfold matching_callbacks.
  induction r as [|[k s] rest [IH1 IH2]]; [auto|]. cbn [notify_entries flat_map fst snd].
  destruct (key_matches k (id (up_task u))).
  - destruct (deliver_set_general wf u s) as [D1 D2].
    rewrite upto_raise_app, forallb_app, D2.
    destruct (forallb cb_safe s) eqn:Fs; cbn [negb andb].
    + cbn [invoked thrown writes]. rewrite D1, IH1, IH2, upto_raise_safe by exact Fs.
      auto.
    + auto.
  - cbn. rewrite IH1, IH2. auto.
Qed.

Lemma registry_safe_matching (r : registry) (x : string) :
  registry_safe r = true -> forallb cb_safe (matching_callbacks r x) = true.
Proof.
  unfold registry_safe, matching_callbacks.
  induction r as [|[k s] rest IH]; cbn; [auto|].
  intros H; apply andb_prop in H as [Hs Hr].
  rewrite forallb_app, IH by exact Hr.
  destruct (key_matches k x); [now rewrite Hs|reflexivity].
Qed.

Lemma deliver_set_invoked (wf : nat -> bool) (u : TaskUpdate) (s : list callback) :
  forall cb, In cb (invoked (deliver_set wf u s)) -> In cb s.
Proof.
  induction s as [|c r IH]; simpl; intros cb Hin; [exact Hin|].
  destruct (run_callback wf u c) as [w t].
  destruct t; simpl in Hin.
  - destruct Hin as [->|[]]; now left.
  - destruct Hin as [->|Hin]; [now left|right; auto].
Qed.

Lemma notify_invoked (wf : nat -> bool) (u : TaskUpdate) (r : registry) :
  forall cb, In cb (invoked (notify_entries wf u r)) ->
  exists k s, In (k, s) r /\ In cb s /\ key_matches k (id (up_task u)) = true.
Proof.
  induction r as [|[k s] rest IH]; simpl; intros cb Hin; [destruct Hin|].
  destruct (key_matches k (id (up_task u))) eqn:Hm.
  - destruct (thrown (deliver_set wf u s)).
    + exists k, s; repeat split; auto. eapply deliver_set_invoked; eauto.
    + simpl in Hin; apply in_app_or in Hin as [Hin|Hin].
      * exists k, s; repeat split; auto. eapply deliver_set_invoked; eauto.
      * destruct (IH cb Hin) as (k' & s' & H1 & H2 & H3).
        exists k', s'; repeat split; auto.
  - simpl in Hin. destruct (IH cb Hin) as (k' & s' & H1 & H2 & H3).
    exists k', s'; repeat split; auto.
Qed.

Lemma deliver_set_safe (wf : nat -> bool) (u : TaskUpdate) (s : list callback) :
  forallb cb_safe s = true ->
  thrown (deliver_set wf u s) = false /\ invoked (deliver_set wf u s) = s.
Proof.
  induction s as [|c r IH]; simpl; [auto|].
  intros H; apply andb_prop in H as [Hc Hr].
  destruct (IH Hr) as [IH1 IH2].
  destruct c as [st|n t]; simpl.
  - destruct (wf st); simpl; rewrite IH1, IH2; auto.
  - destruct t; simpl in Hc; [discriminate|]. simpl. rewrite IH1, IH2; auto.
Qed.

Lemma notify_safe (wf : nat -> bool) (u : TaskUpdate) (r : registry) :
  registry_safe r = true ->
  thrown (notify_entries wf u r) = false /\
  invoked (notify_entries wf u r) = matching_callbacks r (id (up_task u)).
Proof.
  induction r as [|[k s] rest IH]; simpl; [auto|].
  intros H; apply andb_prop in H as [Hs Hr].
  destruct (IH Hr) as [IH1 IH2].
  destruct (key_matches k (id (up_task u))).
  - destruct (deliver_set_safe wf u s Hs) as [D1 D2].
    rewrite D1; simpl. rewrite D2, IH1, IH2; auto.
  - simpl. rewrite IH1, IH2; auto.
Qed.

(* ------------------------------------------------------------------ *)
(** ** Subscription keys *)

Lemma str_app_nil (s : string) : (s ++ "")%string = s.
Proof. induction s as [|x r IH]; simpl; [reflexivity|now rewrite IH]. Qed.

Lemma str_has_app (c : ascii) (a b : string) :
  str_has c (a ++ b) = str_has c a || str_has c b.
Proof.
  induction a as [|x r IH]; simpl; [reflexivity|].
  rewrite IH; apply orb_assoc.
Qed.

Lemma uuid_char_not (x c : ascii) :
  uuid_char c = false -> uuid_char x = true -> Ascii.eqb x c = false.
Proof.
  intros Hc Hx. destruct (Ascii.eqb_spec x c) as [->|]; [congruence|reflexivity].
Qed.

Lemma uuid_shaped_no (c : ascii) (s : string) :
  uuid_char c = false -> uuid_shaped s = true -> str_has c s = false.
Proof.
  intros Hc; induction s as [|x r IH]; simpl; [reflexivity|].
  intros H; apply andb_prop in H as [Hx Hr].
  rewrite (uuid_char_not x c Hc Hx); simpl; auto.
Qed.

Lemma uuid_no_colon (s : string) : uuid_shaped s = true -> str_has ":" s = false.
Proof. apply uuid_shaped_no; reflexivity. Qed.

Lemma uuid_no_comma (s : string) : uuid_shaped s = true -> str_has "," s = false.
Proof. apply uuid_shaped_no; reflexivity. Qed.

Lemma js_split_nonempty (c : ascii) (s : string) : js_split c s <> [].
Proof.
  destruct s as [|x r]; simpl; [discriminate|].
  destruct (Ascii.eqb x c); [discriminate|].
  destruct (js_split c r); discriminate.
Qed.

Lemma js_split_no_sep (c : ascii) (s : string) :
  str_has c s = false -> js_split c s = [s].
Proof.
  induction s as [|x r IH]; simpl; [reflexivity|].
  intros H; apply orb_false_elim in H as [Hx Hr]. rewrite Hx, (IH Hr).
  reflexivity.
Qed.

Lemma js_split_prefix (c : ascii) (a b p : string) (ps : list string) :
  str_has c a = false -> js_split c b = p :: ps ->
  js_split c (a ++ b) = (a ++ p)%string :: ps.
Proof.
  induction a as [|x r IH]; simpl; intros Ha Hb; [exact Hb|].
  apply orb_false_elim in Ha as [Hx Hr]. rewrite Hx, (IH Hr Hb). reflexivity.
Qed.

Lemma js_split_sep (c : ascii) (b : string) :
  js_split c (String c b) = EmptyString :: js_split c b.
Proof. simpl. now rewrite Ascii.eqb_refl. Qed.

Lemma js_join_no (c : ascii) (ids : list string) :
  Ascii.eqb "," c = false -> Forall (fun i => str_has c i = false) ids ->
  str_has c (js_join "," ids) = false.
Proof.
  intros Hsep; induction 1 as [|x r Hx Hr IH]; [reflexivity|].
  destruct r as [|y r']; [exact Hx|].
  change (js_join "," (x :: y :: r')) with (x ++ String "," (js_join "," (y :: r')))%string.
  rewrite str_has_app, Hx; cbn [str_has orb]. rewrite Hsep. exact IH.
Qed.

Lemma js_split_join (ids : list string) :
  ids <> [] -> Forall (fun i => str_has "," i = false) ids ->
  js_split "," (js_join "," ids) = ids.
Proof.
  intros Hne; induction 1 as [|x r Hx Hr IH]; [congruence|].
  destruct r as [|y r'].
  - apply js_split_no_sep, Hx.
  - change (js_join "," (x :: y :: r')) with (x ++ String "," (js_join "," (y :: r')))%string.
    rewrite (js_split_prefix "," x _ EmptyString (js_split "," (js_join "," (y :: r'))) Hx).
    + rewrite str_app_nil, IH; [reflexivity|discriminate].
    + apply js_split_sep.
Qed.

Lemma split_key (u j : string) :
  str_has ":" u = false -> str_has ":" j = false ->
  js_split ":" (u ++ ":" ++ j) = [u; j].
Proof.
  intros Hu Hj.
  rewrite (js_split_prefix ":" u _ EmptyString [j] Hu).
  - now rewrite str_app_nil.
  - change (":" ++ j)%string with (String ":" j).
    rewrite js_split_sep, (js_split_no_sep ":" j Hj). reflexivity.
Qed.

Lemma key_has_colon (u j : string) : str_has ":" (u ++ ":" ++ j) = true.
Proof. rewrite str_has_app. simpl. apply orb_true_r. Qed.

(** Keys of subscriptions with an explicit list, for identifiers without
    the two separators. *)
Lemma key_matches_filtered (userId : string) (ids : list string) (tid : string) :
  str_has ":" userId = false ->
  Forall (fun i => str_has ":" i = false /\ str_has "," i = false) ids ->
  ids <> [] ->
  key_matches (sub_key userId (Some ids)) tid
  = str_truthy (js_join "," ids) && existsb (String.eqb tid) ids.
Proof.
  intros Hu Hids Hne. unfold key_matches, sub_key.
  rewrite key_has_colon; simpl negb; cbv iota.
  assert (Hj : str_has ":" (js_join "," ids) = false).
  { apply js_join_no; [reflexivity|].
    eapply Forall_impl; [|exact Hids]; simpl; tauto. }
  rewrite (split_key userId _ Hu Hj); simpl nth_error; cbv iota.
  rewrite js_split_join; [reflexivity|exact Hne|].
  eapply Forall_impl; [|exact Hids]; simpl; tauto.
Qed.

Lemma key_matches_unfiltered (userId tid : string) :
  str_has ":" userId = false -> key_matches (sub_key userId None) tid = true.
Proof. intros Hu; unfold key_matches, sub_key; now rewrite Hu. Qed.

Lemma key_matches_empty (userId tid : string) :
  str_has ":" userId = false -> key_matches (sub_key userId (Some [])) tid = false.
Proof.
  intros Hu; unfold key_matches, sub_key; simpl js_join.
  rewrite key_has_colon, (split_key userId "" Hu eq_refl). reflexivity.
Qed.

(* ------------------------------------------------------------------ *)
(** ** The stable sort of [listTasks] *)

Definition created_desc (a b : Task) : Prop := (created_at b <= created_at a)%Z.

Lemma sort_insert_perm (x : Task) (l : list Task) :
  Permutation (sort_insert x l) (x :: l).
Proof.
  induction l as [|y ys IH]; simpl; [reflexivity|].
  destruct (Z.gtb (created_desc_cmp x y) 0); [|reflexivity].
  rewrite IH. apply perm_swap.
Qed.

Lemma js_sort_perm (l : list Task) : Permutation (js_sort l) l.
Proof.
  induction l as [|x r IH]; simpl; [reflexivity|].
  rewrite sort_insert_perm. now apply perm_skip.
Qed.

Lemma sort_insert_hd (x y : Task) (l : list Task) :
  HdRel created_desc y l -> created_desc y x -> HdRel created_desc y (sort_insert x l).
Proof.
  intros Hhd Hyx. destruct l as [|z zs]; simpl; [now constructor|].
  destruct (Z.gtb (created_desc_cmp x z) 0); constructor; [inversion Hhd; auto|exact Hyx].
Qed.

Lemma sort_insert_sorted (x : Task) (l : list Task) :
  Sorted created_desc l -> Sorted created_desc (sort_insert x l).
Proof.
  induction l as [|y ys IH]; simpl; intros Hs; [repeat constructor|].
  inversion Hs as [|? ? Hys Hhd]; subst.
  unfold created_desc_cmp.
  destruct (Z.gtb (created_at y - created_at x) 0) eqn:E.
  - apply Z.gtb_lt in E. constructor; [apply IH, Hys|].
    apply sort_insert_hd; [exact Hhd|]. unfold created_desc; lia.
  - rewrite Z.gtb_ltb, Z.ltb_ge in E. constructor; [exact Hs|].
    constructor. unfold created_desc; lia.
Qed.

Lemma js_sort_sorted (l : list Task) : Sorted created_desc (js_sort l).
Proof.
  induction l as [|x r IH]; simpl; [constructor|]. now apply sort_insert_sorted.
Qed.

(** Stability: among records of one creation time the order is kept. *)
Lemma sort_insert_stable (c : Z) (x : Task) (l : list Task) :
  filter (fun t => Z.eqb (created_at t) c) (sort_insert x l)
  = filter (fun t => Z.eqb (created_at t) c) (x :: l).
Proof.
  induction l as [|y ys IH]; simpl; [reflexivity|].
  unfold created_desc_cmp.
  destruct (Z.gtb (created_at y - created_at x) 0) eqn:E; [|reflexivity].
  apply Z.gtb_lt in E. simpl. rewrite IH. simpl.
  destruct (Z.eqb (created_at x) c) eqn:Ex, (Z.eqb (created_at y) c) eqn:Ey;
    try reflexivity.
  apply Z.eqb_eq in Ex, Ey. lia.
Qed.

Lemma js_sort_stable (c : Z) (l : list Task) :
  filter (fun t => Z.eqb (created_at t) c) (js_sort l)
  = filter (fun t => Z.eqb (created_at t) c) l.
Proof.
  induction l as [|x r IH]; simpl; [reflexivity|].
  rewrite sort_insert_stable. simpl. now rewrite IH.
Qed.

(* ================================================================== *)
(** * Claims *)

(** C1 (as stated): the session does not send one snapshot per matching
    record.  With two records in the store, an unfiltered subscriber gets a
    single event, the connection confirmation, instead of two snapshots. *)
Lemma C1_counterexample :
  let st' := snd (SubscribeTaskUpdates no_write_fails demo_verify 0 demo_md
                    (mkSubscribeRequest "7f3a-01" None) 0 two_task_store) in
  stream_writes 0 st' = [connection_update 0 demo_user] /\
  length (spec_seeding_burst 0 (sub_key "7f3a-01" None) two_task_store) = 2%nat /\
  stream_writes 0 st' <> spec_seeding_burst 0 (sub_key "7f3a-01" None) two_task_store.
Proof.
  vm_compute. split; [reflexivity|split; [reflexivity|discriminate]].
Qed.

(** C1 (amended): an authenticated [SubscribeTaskUpdates] registers the
    session's callback, then writes exactly one event on the stream, the
    connection confirmation, whatever the store holds; the records are not
    touched and no snapshot of them is sent. *)
Theorem C1_session_start (wf : nat -> bool) (verify : string -> option JWTPayload)
    (now : Z) (md : Metadata) (req : SubscribeTaskUpdatesRequest) (stream : nat)
    (st : Store) (user : JWTPayload) :
  authenticateCall verify md = Some user -> wf stream = false ->
  let '(res, st') := SubscribeTaskUpdates wf verify now md req stream st in
  res = Ok tt /\
  taskUpdateSubscribers st' =
    subscribe (user_id user) (Session stream) (task_ids req) (taskUpdateSubscribers st) /\
  tasks st' = tasks st /\
  written st' = (written st ++ [(stream, connection_update now user)])%list /\
  stream_writes stream st' = (stream_writes stream st ++ [connection_update now user])%list.
Proof.
  intros Hauth Hw. unfold SubscribeTaskUpdates. rewrite Hauth, Hw. cbn.
  repeat split.
  unfold stream_writes; simpl. rewrite filter_app, map_app. simpl.
  now rewrite Nat.eqb_refl.
Qed.

Lemma C1_witness :
  authenticateCall demo_verify demo_md = Some demo_user /\ no_write_fails 0 = false /\
  let '(res, st') := SubscribeTaskUpdates no_write_fails demo_verify 5 demo_md
                       (mkSubscribeRequest "7f3a-01" None) 0 two_task_store in
  res = Ok tt /\
  taskUpdateSubscribers st' =
    subscribe (user_id demo_user) (Session 0) None (taskUpdateSubscribers two_task_store) /\
  tasks st' = tasks two_task_store /\
  written st' = (written two_task_store ++ [(0%nat, connection_update 5 demo_user)])%list /\
  stream_writes 0 st' = (stream_writes 0 two_task_store ++ [connection_update 5 demo_user])%list.
Proof.
  split; [reflexivity|split; [reflexivity|]].
  exact (C1_session_start no_write_fails demo_verify 5 demo_md
           (mkSubscribeRequest "7f3a-01" None) 0 two_task_store demo_user
           eq_refl eq_refl).
Defined.

(** C2 (as stated): a raising callback is neither removed nor isolated.
    The broadcast stops at it (the next callback is not invoked), the
    exception reaches [createTask], and the registry is unchanged. *)
Lemma C2_counterexample :
  let b := notify_entries no_write_fails
             (mkTaskUpdate CREATED (mk_demo_task "a1" 5) 0)
             (taskUpdateSubscribers raising_store) in
  thrown b = true /\ ~ In (Raw 2 false) (invoked b) /\
  fst (createTask no_write_fails 0 demo_task_data raising_store) = Throw /\
  taskUpdateSubscribers (snd (createTask no_write_fails 0 demo_task_data raising_store))
  = [("7f3a-01", [Raw 1 true; Raw 2 false])].
Proof.
  vm_compute. split; [reflexivity|split; [|split; reflexivity]].
  intros [H|[]]; discriminate.
Qed.

(** C2 (amended): a broadcast never removes a subscription and catches
    nothing itself.  Whatever stream writes fail, it invokes the matching
    callbacks in registry order up to and including the first one that
    raises, and raises exactly when one of them raises; [notifyTaskUpdate],
    [createTask], [updateTask] and [deleteTask] leave the registry unchanged,
    and a mutation ends in an exception exactly when a callback matching its
    record raises.  When no registered callback raises (every stream
    session's callback catches its own write errors), every matching
    callback is invoked in order and create, update and delete return
    normally. *)
Theorem C2_write_failure_is_local (wf : nat -> bool) (now : Z) (ty : UpdateType)
    (task : Task) (st : Store) :
  let r := taskUpdateSubscribers st in
  let m := matching_callbacks r (id task) in
  invoked (notify_run wf now ty task st) = upto_raise m /\
  thrown (notify_run wf now ty task st) = negb (forallb cb_safe m) /\
  taskUpdateSubscribers (fst (notifyTaskUpdate wf now ty task st)) = r /\
  (forall data,
     taskUpdateSubscribers (snd (createTask wf now data st)) = r /\
     (fst (createTask wf now data st) = Throw <->
      forallb cb_safe (matching_callbacks r (uuid_of (next_uuid st))) = false)) /\
  (forall i u,
     taskUpdateSubscribers (snd (updateTask wf now i u st)) = r /\
     (forall t, getTask i st = Some t ->
      (fst (updateTask wf now i u st) = Throw <->
       forallb cb_safe (matching_callbacks r (id t)) = false))) /\
  (forall i,
     taskUpdateSubscribers (snd (deleteTask wf now i st)) = r /\
     (forall t, getTask i st = Some t ->
      (fst (deleteTask wf now i st) = Throw <->
       forallb cb_safe (matching_callbacks r (id t)) = false))) /\
  (registry_safe r = true ->
     thrown (notify_run wf now ty task st) = false /\
     invoked (notify_run wf now ty task st) = m /\
     (forall data, fst (createTask wf now data st) <> Throw) /\
     (forall i u, fst (updateTask wf now i u st) <> Throw) /\
     (forall i, fst (deleteTask wf now i st) <> Throw)).
Proof.
  cbv zeta.
  assert (G : forall u, thrown (notify_entries wf u (taskUpdateSubscribers st))
                        = negb (forallb cb_safe (matching_callbacks (taskUpdateSubscribers st)
                                                   (id (up_task u)))))
    by (intros u; apply notify_general).
  assert (Cr : forall data, taskUpdateSubscribers (snd (createTask wf now data st))
                            = taskUpdateSubscribers st /\
     (fst (createTask wf now data st) = Throw <->
      forallb cb_safe (matching_callbacks (taskUpdateSubscribers st) (uuid_of (next_uuid st)))
      = false)).
  { intros data. unfold createTask, notifyTaskUpdate, notify_run.
    cbn [taskUpdateSubscribers]. rewrite G. cbn [up_task id].
    match goal with |- context [forallb cb_safe ?l] => destruct (forallb cb_safe l) end;
      cbn; split; try reflexivity; split; congruence. }
  assert (Up : forall i u,
     taskUpdateSubscribers (snd (updateTask wf now i u st)) = taskUpdateSubscribers st /\
     (forall t, getTask i st = Some t ->
      (fst (updateTask wf now i u st) = Throw <->
       forallb cb_safe (matching_callbacks (taskUpdateSubscribers st) (id t)) = false))).
  { intros i u. unfold getTask, updateTask.
    destruct (map_get i (tasks st)) as [t0|]; [|split; [reflexivity|discriminate]].
    unfold notifyTaskUpdate, notify_run. cbn [taskUpdateSubscribers]. rewrite G.
    cbn [up_task id merge_task].
    match goal with |- context [forallb cb_safe ?l] => destruct (forallb cb_safe l) eqn:F end;
      cbn; (split; [reflexivity|]);
      intros t Ht; injection Ht as <-; rewrite F; split; congruence. }
  assert (De : forall i,
     taskUpdateSubscribers (snd (deleteTask wf now i st)) = taskUpdateSubscribers st /\
     (forall t, getTask i st = Some t ->
      (fst (deleteTask wf now i st) = Throw <->
       forallb cb_safe (matching_callbacks (taskUpdateSubscribers st) (id t)) = false))).
  { intros i. unfold getTask, deleteTask.
    destruct (map_get i (tasks st)) as [t0|]; [|split; [reflexivity|discriminate]].
    unfold notifyTaskUpdate, notify_run. cbn [taskUpdateSubscribers]. rewrite G.
    cbn [up_task id].
    match goal with |- context [forallb cb_safe ?l] => destruct (forallb cb_safe l) eqn:F end;
      cbn; (split; [reflexivity|]);
      intros t Ht; injection Ht as <-; rewrite F; split; congruence. }
  destruct (notify_general wf (mkTaskUpdate ty task now) (taskUpdateSubscribers st))
    as [N1 N2].
  cbn [up_task] in N1, N2. unfold notify_run.
  split; [exact N1|split; [exact N2|split; [reflexivity|split; [exact Cr|split; [exact Up|split; [exact De|]]]]]].
  intros Hs.
  pose proof (fun x => registry_safe_matching _ x Hs) as S.
  rewrite N2, N1, S, upto_raise_safe by apply S.
  split; [reflexivity|split; [reflexivity|split; [|split]]].
  - intros data Ht. apply (proj2 (Cr data)) in Ht. now rewrite S in Ht.
  - intros i u Ht.
    destruct (map_get i (tasks st)) as [t0|] eqn:E;
      [|unfold updateTask in Ht; rewrite E in Ht; discriminate].
    apply (proj2 (Up i u) t0 E) in Ht. now rewrite S in Ht.
  - intros i Ht.
    destruct (map_get i (tasks st)) as [t0|] eqn:E;
      [|unfold deleteTask in Ht; rewrite E in Ht; discriminate].
    apply (proj2 (De i) t0 E) in Ht. now rewrite S in Ht.
Qed.

(** C2 at a registry whose first callback raises: the broadcast stops after
    it; and at a registry of stream sessions, one of whose writes fails:
    nothing is raised. *)
Lemma C2_witness :
  invoked (notify_run no_write_fails 0 CREATED (mk_demo_task "a1" 5) raising_store)
    = [Raw 1 true] /\
  registry_safe [("7f3a-01", [Session 0; Session 1])] = true /\
  thrown (notify_run (fun s => Nat.eqb s 0) 0 CREATED (mk_demo_task "a1" 5)
            (mkStore [] [("7f3a-01", [Session 0; Session 1])] 0 [])) = false.
Proof.
  split.
  - rewrite (proj1 (C2_write_failure_is_local no_write_fails 0 CREATED
                     (mk_demo_task "a1" 5) raising_store)).
    reflexivity.
  - split; [reflexivity|].
    destruct (C2_write_failure_is_local (fun s => Nat.eqb s 0) 0 CREATED (mk_demo_task "a1" 5)
         (mkStore [] [("7f3a-01", [Session 0; Session 1])] 0 []))
      as (_ & _ & _ & _ & _ & _ & Hs).
    exact (proj1 (Hs eq_refl)).
Defined.

(** C3 (as stated): an identifier holding a separator breaks the key
    encoding.  A subscriber asking for the single identifier "a1,b2" is
    delivered the events of task "a1". *)
Lemma C3_counterexample :
  In (Session 0)
     (invoked (notify_entries no_write_fails
                 (mkTaskUpdate UPDATED (mk_demo_task "a1" 5) 0)
                 (subscribe "7f3a-01" (Session 0) (Some ["a1,b2"]) []))) /\
  ~ In "a1" ["a1,b2"].
Proof.
  split.
  - vm_compute. left; reflexivity.
  - intros [H|[]]; discriminate.
Qed.

(** C3 (amended): for a subscriber identifier and requested identifiers
    made of uuid characters (no ':' and no ','), a callback registered only
    under an explicit non-empty list is only invoked for events of listed
    tasks; a callback registered without a list is invoked for every event
    when no registered callback raises. *)
Theorem C3_filter_respected (wf : nat -> bool) (u : TaskUpdate) (r : registry)
    (userId : string) (ids : list string) (cb cb0 : callback) (s0 : list callback) :
  uuid_shaped userId = true ->
  Forall (fun i => uuid_shaped i = true) ids -> ids <> [] ->
  ((forall k s, In (k, s) r -> In cb s -> k = sub_key userId (Some ids)) ->
   In cb (invoked (notify_entries wf u r)) -> In (id (up_task u)) ids) /\
  (In (sub_key userId None, s0) r -> In cb0 s0 -> registry_safe r = true ->
   In cb0 (invoked (notify_entries wf u r))).
Proof.
  intros Hu Hids Hne. split.
  - intros Honly Hin.
    destruct (notify_invoked wf u r cb Hin) as (k & s & Hks & Hcb & Hm).
    rewrite (Honly k s Hks Hcb) in Hm.
    rewrite key_matches_filtered in Hm.
    + apply andb_prop in Hm as [_ Hm]. apply existsb_exists in Hm as (x & Hx & Heq).
      apply String.eqb_eq in Heq. now subst.
    + now apply uuid_no_colon.
    + eapply Forall_impl; [|exact Hids]. intros a Ha.
      split; [now apply uuid_no_colon|now apply uuid_no_comma].
    + exact Hne.
  - intros Hin Hcb Hs. rewrite (proj2 (notify_safe wf u r Hs)).
    unfold matching_callbacks. apply in_flat_map.
    exists (sub_key userId None, s0). split; [exact Hin|].
    cbn [fst snd]. rewrite key_matches_unfiltered; [exact Hcb|now apply uuid_no_colon].
Qed.

Lemma C3_witness :
  uuid_shaped "7f3a-01" = true /\ Forall (fun i => uuid_shaped i = true) ["a1"] /\
  ["a1"] <> [] /\
  let r := subscribe "7f3a-01" (Session 0) (Some ["a1"])
             (subscribe "7f3a-01" (Session 1) None []) in
  let u := mkTaskUpdate UPDATED (mk_demo_task "b2" 5) 0 in
  ((forall k s, In (k, s) r -> In (Session 0) s -> k = sub_key "7f3a-01" (Some ["a1"])) ->
   In (Session 0) (invoked (notify_entries no_write_fails u r)) -> In (id (up_task u)) ["a1"]) /\
  (In (sub_key "7f3a-01" None, [Session 1]) r -> In (Session 1) [Session 1] ->
   registry_safe r = true -> In (Session 1) (invoked (notify_entries no_write_fails u r))).
Proof.
  split; [reflexivity|split; [repeat constructor|split; [discriminate|]]].
  exact (C3_filter_respected no_write_fails (mkTaskUpdate UPDATED (mk_demo_task "b2" 5) 0)
           (subscribe "7f3a-01" (Session 0) (Some ["a1"])
              (subscribe "7f3a-01" (Session 1) None []))
           "7f3a-01" ["a1"] (Session 0) (Session 1) [Session 1]
           eq_refl (Forall_cons "a1" (eq_refl : uuid_shaped "a1" = true) (Forall_nil _)) ltac:(discriminate)).
Defined.

(** C4: [updateTask] on a present record merges exactly the present fields,
    keeps [id] and [created_at], stamps [updated_at] with the current time,
    returns the merged record and stores it (when no registered callback
    raises during the UPDATED broadcast). *)
Theorem C4_update_merges (wf : nat -> bool) (now : Z) (i : string)
    (u : TaskUpdates) (st : Store) (t : Task) :
  map_get i (tasks st) = Some t ->
  registry_safe (taskUpdateSubscribers st) = true ->
  exists t',
    fst (updateTask wf now i u st) = Ret (Some t') /\
    getTask i (snd (updateTask wf now i u st)) = Some t' /\
    id t' = id t /\ created_at t' = created_at t /\ updated_at t' = now /\
    merged (u_title u) (title t) (title t') /\
    merged (u_description u) (description t) (description t') /\
    merged (u_status u) (status t) (status t') /\
    merged (u_priority u) (priority t) (priority t') /\
    merged (u_assignee_id u) (assignee_id t) (assignee_id t') /\
    merged (option_map Some (u_due_date u)) (due_date t) (due_date t') /\
    merged (u_tags u) (tags t) (tags t').
Proof.
  intros Hget Hs. exists (merge_task now t u).
  unfold updateTask. rewrite Hget.
  unfold notifyTaskUpdate, notify_run. cbn [taskUpdateSubscribers].
  rewrite (proj1 (notify_safe wf _ _ Hs)). cbn.
  split; [reflexivity|split; [unfold getTask; apply map_get_set_same|]].
  unfold merged, merge_task; cbn.
  destruct (u_title u), (u_description u), (u_status u), (u_priority u),
    (u_assignee_id u), (u_due_date u), (u_tags u); cbn; repeat split.
Qed.

Lemma C4_witness :
  map_get "a1" (tasks two_task_store) = Some (mk_demo_task "a1" 5) /\
  registry_safe (taskUpdateSubscribers two_task_store) = true /\
  let u := mkTaskUpdates None None (Some IN_PROGRESS) None None None None in
  exists t',
    fst (updateTask no_write_fails 9 "a1" u two_task_store) = Ret (Some t') /\
    getTask "a1" (snd (updateTask no_write_fails 9 "a1" u two_task_store)) = Some t' /\
    id t' = id (mk_demo_task "a1" 5) /\ created_at t' = created_at (mk_demo_task "a1" 5) /\
    updated_at t' = 9%Z /\
    merged (u_title u) (title (mk_demo_task "a1" 5)) (title t') /\
    merged (u_description u) (description (mk_demo_task "a1" 5)) (description t') /\
    merged (u_status u) (status (mk_demo_task "a1" 5)) (status t') /\
    merged (u_priority u) (priority (mk_demo_task "a1" 5)) (priority t') /\
    merged (u_assignee_id u) (assignee_id (mk_demo_task "a1" 5)) (assignee_id t') /\
    merged (option_map Some (u_due_date u)) (due_date (mk_demo_task "a1" 5)) (due_date t') /\
    merged (u_tags u) (tags (mk_demo_task "a1" 5)) (tags t').
Proof.
  split; [reflexivity|split; [reflexivity|]].
  exact (C4_update_merges no_write_fails 9 "a1"
           (mkTaskUpdates None None (Some IN_PROGRESS) None None None None)
           two_task_store (mk_demo_task "a1" 5) eq_refl eq_refl).
Defined.

(** C5: a [CreateTask] call whose credential is missing or does not verify
    is answered UNAUTHENTICATED and leaves the whole store (records,
    identifier supply, registry, stream writes) as it was. *)
Theorem C5_unauthenticated_create (wf : nat -> bool)
    (verify : string -> option JWTPayload) (now : Z) (md : Metadata)
    (req : CreateTaskRequest) (st : Store) :
  authenticateCall verify md = None ->
  CreateTask wf verify now md req st = (Err UNAUTHENTICATED, st) /\
  total_count (listTasks first_page (snd (CreateTask wf verify now md req st)))
  = total_count (listTasks first_page st).
Proof.
  intros H. unfold CreateTask. rewrite H. split; reflexivity.
Qed.

Lemma C5_witness :
  authenticateCall demo_verify [("authorization", "Bearer forged")] = None /\
  CreateTask no_write_fails demo_verify 0 [("authorization", "Bearer forged")]
    (mkCreateTaskRequest "task" "demo" None "" None None) two_task_store
  = (Err UNAUTHENTICATED, two_task_store) /\
  total_count (listTasks first_page
    (snd (CreateTask no_write_fails demo_verify 0 [("authorization", "Bearer forged")]
            (mkCreateTaskRequest "task" "demo" None "" None None) two_task_store)))
  = total_count (listTasks first_page two_task_store).
Proof.
  split; [reflexivity|].
  exact (C5_unauthenticated_create no_write_fails demo_verify 0
           [("authorization", "Bearer forged")]
           (mkCreateTaskRequest "task" "demo" None "" None None) two_task_store eq_refl).
Defined.

(** C6 (as stated): ties are not broken by identifier.  Two stores with the
    same two records of equal creation time list them in their insertion
    orders, so the order is not a function of the record set: once by
    ascending, once by descending identifier. *)
Lemma C6_counterexample :
  Permutation (tasks tie_store_ab) (tasks tie_store_ba) /\
  map id (lr_tasks (listTasks first_page tie_store_ab)) = ["a1"; "b2"] /\
  map id (lr_tasks (listTasks first_page tie_store_ba)) = ["b2"; "a1"].
Proof.
  split; [apply perm_swap|split; vm_compute; reflexivity].
Qed.

(** C6 (amended): the page is the requested slice of the matching records
    sorted by creation time, newest first, by a stable sort: records with
    equal creation times keep their store insertion order. *)
Theorem C6_list_order (f : ListTasksRequest) (st : Store) :
  lr_tasks (listTasks f st)
    = js_slice (sorted_tasks f st) ((page f - 1) * page_size f)
               ((page f - 1) * page_size f + page_size f) /\
  Sorted created_desc (sorted_tasks f st) /\
  Permutation (sorted_tasks f st) (filtered_tasks f st) /\
  (forall c, filter (fun t => Z.eqb (created_at t) c) (sorted_tasks f st)
             = filter (fun t => Z.eqb (created_at t) c) (filtered_tasks f st)).
Proof.
  split; [reflexivity|].
  split; [apply js_sort_sorted|split; [apply js_sort_perm|intros c; apply js_sort_stable]].
Qed.

(** C7 (code defect): [ListTasks] clamps [page_size] only from above.  A
    negative [page_size] reaches [slice] as a negative end index, which
    counts from the end: with 106 records, page 1 and page_size -5 the page
    holds 101 tasks. *)
Theorem C7_negative_page_size_overflow :
  match ListTasks demo_verify demo_md (mkListTasksRequest 1 (-5) None None None)
          (many_tasks_store 106) with
  | Ok r => length (lr_tasks r) = 101%nat /\ total_count r = 106%Z /\
            lr_page_size r = (-5)%Z
  | Err _ => False
  end.
Proof. vm_compute. repeat split. Qed.

(** C8: [unsubscribe] is total, removes a freshly registered callback from
    every set, so no later broadcast invokes it, and further calls change
    nothing; on any registry it is idempotent. *)
Theorem C8_unsubscribe_idempotent (wf : nat -> bool) (userId : string)
    (cb : callback) (taskIds : option (list string)) (r : registry) :
  (forall k s, In (k, s) r -> ~ In cb s) ->
  let key := sub_key userId taskIds in
  let r1 := unsubscribe key cb (subscribe userId cb taskIds r) in
  (forall k s, In (k, s) r1 -> ~ In cb s) /\
  (forall u, ~ In cb (invoked (notify_entries wf u r1))) /\
  (forall n, Nat.iter n (unsubscribe key cb) r1 = r1) /\
  (forall r', unsubscribe key cb (unsubscribe key cb r') = unsubscribe key cb r').
Proof.
  intros Hfresh key r1.
  assert (Hclean : forall k s, In (k, s) r1 -> ~ In cb s).
  { apply unsubscribe_clears.
    - apply subscribe_only_at_key, fresh_only_at_key, Hfresh.
    - apply subscribe_get. }
  split; [exact Hclean|split; [|split]].
  - intros u Hin. destruct (notify_invoked wf u r1 cb Hin) as (k & s & H1 & H2 & _).
    exact (Hclean k s H1 H2).
  - intros n. apply unsubscribe_iter.
  - intros r'. apply unsubscribe_idem.
Qed.

Lemma C8_witness :
  (forall k s, In (k, s) [("7f3a-01", [Session 1])] -> ~ In (Session 0) s) /\
  let key := sub_key "7f3a-01" None in
  let r1 := unsubscribe key (Session 0)
              (subscribe "7f3a-01" (Session 0) None [("7f3a-01", [Session 1])]) in
  (forall k s, In (k, s) r1 -> ~ In (Session 0) s) /\
  (forall u, ~ In (Session 0) (invoked (notify_entries no_write_fails u r1))) /\
  (forall n, Nat.iter n (unsubscribe key (Session 0)) r1 = r1) /\
  (forall r', unsubscribe key (Session 0) (unsubscribe key (Session 0) r')
              = unsubscribe key (Session 0) r').
Proof.
  assert (H : forall k s, In (k, s) [("7f3a-01", [Session 1])] -> ~ In (Session 0) s).
  { intros k s [Heq|[]]; inversion Heq; subst. intros [Hc|[]]; discriminate. }
  split; [exact H|].
  exact (C8_unsubscribe_idempotent no_write_fails "7f3a-01" (Session 0) None
           [("7f3a-01", [Session 1])] H).
Defined.

(** C9: an explicit empty list gives the key [userId ++ ":"], a filtered
    key whose identifier part is the empty string, so a callback registered
    only under it is invoked by no broadcast (for a uuid user identifier). *)
Theorem C9_empty_list_gets_nothing (wf : nat -> bool) (u : TaskUpdate)
    (r : registry) (userId : string) (cb : callback) :
  uuid_shaped userId = true ->
  (forall k s, In (k, s) r -> In cb s -> k = sub_key userId (Some [])) ->
  str_has ":" (sub_key userId (Some [])) = true /\
  (forall tid, key_matches (sub_key userId (Some [])) tid = false) /\
  ~ In cb (invoked (notify_entries wf u r)).
Proof.
  intros Hu Honly.
  assert (Hm : forall tid, key_matches (sub_key userId (Some [])) tid = false)
    by (intros tid; apply key_matches_empty, uuid_no_colon, Hu).
  split; [apply key_has_colon|split; [exact Hm|]].
  intros Hin. destruct (notify_invoked wf u r cb Hin) as (k & s & H1 & H2 & H3).
  rewrite (Honly k s H1 H2), Hm in H3. discriminate.
Qed.

Lemma C9_witness :
  uuid_shaped "7f3a-01" = true /\
  (forall k s, In (k, s) (subscribe "7f3a-01" (Session 0) (Some []) []) ->
     In (Session 0) s -> k = sub_key "7f3a-01" (Some [])) /\
  str_has ":" (sub_key "7f3a-01" (Some [])) = true /\
  (forall tid, key_matches (sub_key "7f3a-01" (Some [])) tid = false) /\
  ~ In (Session 0) (invoked (notify_entries no_write_fails
                              (mkTaskUpdate CREATED (mk_demo_task "a1" 5) 0)
                              (subscribe "7f3a-01" (Session 0) (Some []) []))).
Proof.
  assert (H : forall k s, In (k, s) (subscribe "7f3a-01" (Session 0) (Some []) []) ->
                In (Session 0) s -> k = sub_key "7f3a-01" (Some [])).
  { vm_compute. intros k s [Heq|[]] _. inversion Heq; reflexivity. }
  split; [reflexivity|split; [exact H|]].
  exact (C9_empty_list_gets_nothing no_write_fails
           (mkTaskUpdate CREATED (mk_demo_task "a1" 5) 0)
           (subscribe "7f3a-01" (Session 0) (Some []) []) "7f3a-01" (Session 0)
           eq_refl H).
Defined.

(** C10: a successful [CreateTask] stores a PENDING record whose priority
    is the requested one or MEDIUM and whose tags are the requested ones or
    the empty list. *)
Theorem C10_create_defaults (wf : nat -> bool) (verify : string -> option JWTPayload)
    (now : Z) (md : Metadata) (req : CreateTaskRequest) (st st' : Store) (t : Task) :
  CreateTask wf verify now md req st = (Ok t, st') ->
  status t = PENDING /\
  priority t = match c_priority req with Some p => p | None => MEDIUM end /\
  tags t = match c_tags req with Some l => l | None => [] end /\
  getTask (id t) st' = Some t.
Proof.
  unfold CreateTask.
  destruct (authenticateCall verify md) as [user|]; [|discriminate].
  destruct (negb (str_truthy (c_title req)) || negb (str_truthy (c_description req)));
    [discriminate|].
  unfold createTask, notifyTaskUpdate.
  destruct (thrown _); [discriminate|].
  intros H; inversion H; subst; clear H. cbn.
  repeat split. unfold getTask; cbn. apply map_get_set_same.
Qed.

Lemma C10_witness :
  CreateTask no_write_fails demo_verify 3 demo_md
    (mkCreateTaskRequest "task" "demo" None "" None None) empty_store
  = (Ok (mkTask "0" "task" "demo" PENDING MEDIUM "7f3a-01" 3 3 None []),
     mkStore [("0", mkTask "0" "task" "demo" PENDING MEDIUM "7f3a-01" 3 3 None [])]
             [] 1 []) /\
  status (mkTask "0" "task" "demo" PENDING MEDIUM "7f3a-01" 3 3 None []) = PENDING /\
  priority (mkTask "0" "task" "demo" PENDING MEDIUM "7f3a-01" 3 3 None []) = MEDIUM /\
  tags (mkTask "0" "task" "demo" PENDING MEDIUM "7f3a-01" 3 3 None []) = [] /\
  getTask "0" (mkStore [("0", mkTask "0" "task" "demo" PENDING MEDIUM "7f3a-01" 3 3 None [])]
             [] 1 [])
  = Some (mkTask "0" "task" "demo" PENDING MEDIUM "7f3a-01" 3 3 None []).
Proof.
  assert (H : CreateTask no_write_fails demo_verify 3 demo_md
    (mkCreateTaskRequest "task" "demo" None "" None None) empty_store
  = (Ok (mkTask "0" "task" "demo" PENDING MEDIUM "7f3a-01" 3 3 None []),
     mkStore [("0", mkTask "0" "task" "demo" PENDING MEDIUM "7f3a-01" 3 3 None [])]
             [] 1 [])) by (vm_compute; reflexivity).
  split; [exact H|].
  exact (C10_create_defaults no_write_fails demo_verify 3 demo_md
           (mkCreateTaskRequest "task" "demo" None "" None None) empty_store _ _ H).
Defined.

(* ================================================================== *)
(** * Further properties of the code *)

Section MoreMapLemmas.
Context {V : Type}.

Lemma map_get_set_other (k k' : string) (v : V) (m : list (string * V)) :
  k <> k' -> map_get k (map_set k' v m) = map_get k m.
Proof.
  intros Hne. induction m as [|[k0 v0] r IH]; simpl.
  - destruct (String.eqb_spec k k'); congruence.
  - destruct (String.eqb_spec k' k0) as [->|]; simpl.
    + destruct (String.eqb_spec k k0); congruence.
    + destruct (String.eqb k k0); [reflexivity|exact IH].
Qed.

Lemma map_get_delete_other (k k' : string) (m : list (string * V)) :
  k <> k' -> map_get k (map_delete k' m) = map_get k m.
Proof.
  intros Hne. unfold map_delete.
  induction m as [|[k0 v0] r IH]; simpl; [reflexivity|].
  destruct (String.eqb_spec k' k0) as [->|]; simpl.
  - destruct (String.eqb_spec k k0); [congruence|exact IH].
  - destruct (String.eqb k k0); [reflexivity|exact IH].
Qed.

Lemma map_set_present_keys (k : string) (v w : V) (m : list (string * V)) :
  map_get k m = Some w -> map fst (map_set k v m) = map fst m.
Proof.
  induction m as [|[k0 v0] r IH]; simpl; [discriminate|].
  destruct (String.eqb k k0); simpl; [reflexivity|].
  intros H; now rewrite (IH H).
Qed.

Lemma map_set_absent (k : string) (v : V) (m : list (string * V)) :
  map_get k m = None -> map_set k v m = (m ++ [(k, v)])%list.
Proof.
  induction m as [|[k0 v0] r IH]; simpl; [reflexivity|].
  destruct (String.eqb k k0); [discriminate|]. intros H; now rewrite (IH H).
Qed.

Lemma map_set_same_value (k : string) (v : V) (m : list (string * V)) :
  map_get k m = Some v -> map_set k v m = m.
Proof.
  induction m as [|[k0 v0] r IH]; simpl; [discriminate|].
  destruct (String.eqb k k0); [intros H; now inversion H|].
  intros H; now rewrite (IH H).
Qed.

Lemma in_map_set (k k' : string) (v s : V) (m : list (string * V)) :
  In (k', s) (map_set k v m) -> In (k', s) m \/ (k' = k /\ s = v).
Proof.
  induction m as [|[k0 v0] r IH]; simpl.
  - intros [H|[]]; inversion H; subst; auto.
  - destruct (String.eqb_spec k k0) as [->|]; simpl.
    + intros [H|H]; [inversion H; subst; auto|auto].
    + intros [H|H]; [auto|]. destruct (IH H); auto.
Qed.

Lemma map_get_none_keys (k : string) (m : list (string * V)) :
  map_get k m = None -> ~ In k (map fst m).
Proof.
  induction m as [|[k0 v0] r IH]; simpl; [tauto|].
  destruct (String.eqb_spec k k0); [discriminate|].
  intros H [Heq|Hin]; [congruence|exact (IH H Hin)].
Qed.

Lemma map_get_in (k : string) (v : V) (m : list (string * V)) :
  map_get k m = Some v -> exists k', In (k', v) m.
Proof.
  induction m as [|[k0 v0] r IH]; simpl; [discriminate|].
  destruct (String.eqb k k0).
  - intros H; inversion H; subst; eauto.
  - intros H; destruct (IH H) as [k' Hk]; eauto.
Qed.

Lemma map_delete_absent (k : string) (m : list (string * V)) :
  map_get k m = None -> map_delete k m = m.
Proof.
  unfold map_delete. induction m as [|[k0 v0] r IH]; simpl; [reflexivity|].
  destruct (String.eqb k k0); [discriminate|]. simpl. intros H; now rewrite (IH H).
Qed.

Lemma nodup_keys_delete (k : string) (m : list (string * V)) :
  NoDup (map fst m) -> NoDup (map fst (map_delete k m)).
Proof.
  unfold map_delete. induction m as [|[k0 v0] r IH]; simpl; [auto|].
  intros H; inversion H as [|? ? Hnin Hnd]; subst.
  destruct (negb (String.eqb k k0)); simpl; [|auto].
  constructor; [|auto]. intros Hin; apply Hnin.
  apply in_map_iff in Hin as ([k1 v1] & Hk & Hin). simpl in Hk; subst.
  apply filter_In in Hin as [Hin _]. now apply (in_map fst) in Hin.
Qed.

Lemma map_set_length (k : string) (v w : V) (m : list (string * V)) :
  map_get k m = Some w -> length (map_set k v m) = length m.
Proof.
  intros H. rewrite <- (length_map fst), (map_set_present_keys k v w m H).
  apply length_map.
Qed.

End MoreMapLemmas.

(** Case on whether a broadcast raised. *)
Ltac case_thrown :=
  match goal with |- context [thrown ?b] => destruct (thrown b) end.

(** [createTask] stores the new record under the next identifier before it
    broadcasts, so the record is stored even when a callback raises; every
    other identifier keeps its record and the registry is unchanged. *)
Theorem createTask_stores (wf : nat -> bool) (now : Z) (data : TaskData) (st : Store) :
  exists t,
    id t = uuid_of (next_uuid st) /\ created_at t = now /\ updated_at t = now /\
    getTask (id t) (snd (createTask wf now data st)) = Some t /\
    (fst (createTask wf now data st) = Ret t \/ fst (createTask wf now data st) = Throw) /\
    next_uuid (snd (createTask wf now data st)) = S (next_uuid st) /\
    taskUpdateSubscribers (snd (createTask wf now data st)) = taskUpdateSubscribers st /\
    (forall k, k <> id t -> getTask k (snd (createTask wf now data st)) = getTask k st).
Proof.
  unfold createTask, notifyTaskUpdate, getTask. cbn.
  case_thrown; eexists; cbn; (repeat split);
    try apply map_get_set_same; auto;
    intros k Hk; now apply map_get_set_other.
Qed.

(** [updateTask] and [deleteTask] on an absent identifier change nothing:
    no record, no identifier, no broadcast. *)
Theorem update_delete_absent (wf : nat -> bool) (now : Z) (i : string)
    (u : TaskUpdates) (st : Store) :
  getTask i st = None ->
  updateTask wf now i u st = (Ret None, st) /\ deleteTask wf now i st = (Ret false, st).
Proof. unfold getTask, updateTask, deleteTask; intros H; now rewrite H. Qed.

Lemma update_delete_absent_witness :
  getTask "zz" two_task_store = None /\
  updateTask no_write_fails 1 "zz" (mkTaskUpdates (Some "x") None None None None None None)
    two_task_store = (Ret None, two_task_store) /\
  deleteTask no_write_fails 1 "zz" two_task_store = (Ret false, two_task_store).
Proof.
  split; [reflexivity|].
  exact (update_delete_absent no_write_fails 1 "zz"
           (mkTaskUpdates (Some "x") None None None None None None) two_task_store eq_refl).
Defined.

(** [deleteTask] on a present identifier removes exactly that record and
    broadcasts a DELETED event carrying the record as it was. *)
Theorem deleteTask_present (wf : nat -> bool) (now : Z) (i : string) (t : Task)
    (st : Store) :
  getTask i st = Some t ->
  let b := notify_entries wf (mkTaskUpdate DELETED t now) (taskUpdateSubscribers st) in
  getTask i (snd (deleteTask wf now i st)) = None /\
  (forall k, k <> i -> getTask k (snd (deleteTask wf now i st)) = getTask k st) /\
  written (snd (deleteTask wf now i st)) = (written st ++ writes b)%list /\
  fst (deleteTask wf now i st) = (if thrown b then Throw else Ret true).
Proof.
  unfold getTask, deleteTask. intros H. rewrite H.
  unfold notifyTaskUpdate, notify_run. cbn.
  case_thrown; cbn; repeat split;
    try apply map_get_delete_same; intros k Hk; now apply map_get_delete_other.
Qed.

Lemma deleteTask_present_witness :
  getTask "a1" two_task_store = Some (mk_demo_task "a1" 5) /\
  let b := notify_entries no_write_fails (mkTaskUpdate DELETED (mk_demo_task "a1" 5) 1)
             (taskUpdateSubscribers two_task_store) in
  getTask "a1" (snd (deleteTask no_write_fails 1 "a1" two_task_store)) = None /\
  (forall k, k <> "a1" ->
     getTask k (snd (deleteTask no_write_fails 1 "a1" two_task_store)) = getTask k two_task_store) /\
  written (snd (deleteTask no_write_fails 1 "a1" two_task_store))
    = (written two_task_store ++ writes b)%list /\
  fst (deleteTask no_write_fails 1 "a1" two_task_store) = (if thrown b then Throw else Ret true).
Proof.
  split; [reflexivity|].
  exact (deleteTask_present no_write_fails 1 "a1" (mk_demo_task "a1" 5) two_task_store eq_refl).
Defined.

(** [updateTask] on a present identifier touches no other record, keeps
    the number of records, and broadcasts an UPDATED event carrying the
    merged record. *)
Theorem updateTask_frame (wf : nat -> bool) (now : Z) (i : string) (u : TaskUpdates)
    (t : Task) (st : Store) :
  getTask i st = Some t ->
  let b := notify_entries wf (mkTaskUpdate UPDATED (merge_task now t u) now)
             (taskUpdateSubscribers st) in
  (forall k, k <> i -> getTask k (snd (updateTask wf now i u st)) = getTask k st) /\
  length (tasks (snd (updateTask wf now i u st))) = length (tasks st) /\
  written (snd (updateTask wf now i u st)) = (written st ++ writes b)%list.
Proof.
  unfold getTask, updateTask. intros H. rewrite H.
  unfold notifyTaskUpdate, notify_run. cbn.
  case_thrown; cbn; repeat split;
    try (intros k Hk; now apply map_get_set_other);
    eapply map_set_length; exact H.
Qed.

Lemma updateTask_frame_witness :
  getTask "a1" two_task_store = Some (mk_demo_task "a1" 5) /\
  let u := mkTaskUpdates (Some "renamed") None None None None None None in
  let b := notify_entries no_write_fails
             (mkTaskUpdate UPDATED (merge_task 8 (mk_demo_task "a1" 5) u) 8)
             (taskUpdateSubscribers two_task_store) in
  (forall k, k <> "a1" ->
     getTask k (snd (updateTask no_write_fails 8 "a1" u two_task_store)) = getTask k two_task_store) /\
  length (tasks (snd (updateTask no_write_fails 8 "a1" u two_task_store)))
    = length (tasks two_task_store) /\
  written (snd (updateTask no_write_fails 8 "a1" u two_task_store))
    = (written two_task_store ++ writes b)%list.
Proof.
  split; [reflexivity|].
  exact (updateTask_frame no_write_fails 8 "a1"
           (mkTaskUpdates (Some "renamed") None None None None None None)
           (mk_demo_task "a1" 5) two_task_store eq_refl).
Defined.

(** Every task entry point other than [CreateTask] answers a call whose
    credential is missing or does not verify with UNAUTHENTICATED, before
    touching the records or the registry. *)
Theorem handlers_unauthenticated (wf : nat -> bool) (verify : string -> option JWTPayload)
    (now : Z) (md : Metadata) (st : Store) (reqId : string) (ureq : UpdateTaskRequest)
    (lreq : ListTasksRequest) (sreq : SubscribeTaskUpdatesRequest) (stream : nat) :
  authenticateCall verify md = None ->
  GetTask verify md reqId st = Err UNAUTHENTICATED /\
  UpdateTask wf verify now md ureq st = (Err UNAUTHENTICATED, st) /\
  DeleteTask wf verify now md reqId st = (Err UNAUTHENTICATED, st) /\
  ListTasks verify md lreq st = Err UNAUTHENTICATED /\
  SubscribeTaskUpdates wf verify now md sreq stream st = (Err UNAUTHENTICATED, st).
Proof.
  intros H. unfold GetTask, UpdateTask, DeleteTask, ListTasks, SubscribeTaskUpdates.
  rewrite H. repeat split.
Qed.

Lemma handlers_unauthenticated_witness :
  authenticateCall demo_verify [] = None /\
  GetTask demo_verify [] "a1" two_task_store = Err UNAUTHENTICATED /\
  UpdateTask no_write_fails demo_verify 0 []
    (mkUpdateTaskRequest "a1" None None None None None None None) two_task_store
    = (Err UNAUTHENTICATED, two_task_store) /\
  DeleteTask no_write_fails demo_verify 0 [] "a1" two_task_store
    = (Err UNAUTHENTICATED, two_task_store) /\
  ListTasks demo_verify [] first_page two_task_store = Err UNAUTHENTICATED /\
  SubscribeTaskUpdates no_write_fails demo_verify 0 [] (mkSubscribeRequest "7f3a-01" None) 0
    two_task_store = (Err UNAUTHENTICATED, two_task_store).
Proof.
  split; [reflexivity|].
  exact (handlers_unauthenticated no_write_fails demo_verify 0 [] two_task_store "a1"
           (mkUpdateTaskRequest "a1" None None None None None None None) first_page
           (mkSubscribeRequest "7f3a-01" None) 0 eq_refl).
Defined.

(** An authenticated call naming an absent identifier gets NOT_FOUND from
    [GetTask], [UpdateTask] and [DeleteTask], and the store is unchanged. *)
Theorem handlers_not_found (wf : nat -> bool) (verify : string -> option JWTPayload)
    (now : Z) (md : Metadata) (st : Store) (ureq : UpdateTaskRequest)
    (user : JWTPayload) :
  authenticateCall verify md = Some user -> getTask (ur_id ureq) st = None ->
  GetTask verify md (ur_id ureq) st = Err NOT_FOUND /\
  UpdateTask wf verify now md ureq st = (Err NOT_FOUND, st) /\
  DeleteTask wf verify now md (ur_id ureq) st = (Err NOT_FOUND, st).
Proof.
  intros Ha Hg. unfold GetTask, UpdateTask, DeleteTask. rewrite Ha, Hg.
  unfold deleteTask. unfold getTask in Hg. rewrite Hg.
  repeat split.
Qed.

Lemma handlers_not_found_witness :
  authenticateCall demo_verify demo_md = Some demo_user /\
  getTask (ur_id (mkUpdateTaskRequest "zz" None None None None None None None)) two_task_store
    = None /\
  GetTask demo_verify demo_md "zz" two_task_store = Err NOT_FOUND /\
  UpdateTask no_write_fails demo_verify 0 demo_md
    (mkUpdateTaskRequest "zz" None None None None None None None) two_task_store
    = (Err NOT_FOUND, two_task_store) /\
  DeleteTask no_write_fails demo_verify 0 demo_md "zz" two_task_store
    = (Err NOT_FOUND, two_task_store).
Proof.
  split; [reflexivity|split; [reflexivity|]].
  exact (handlers_not_found no_write_fails demo_verify 0 demo_md two_task_store
           (mkUpdateTaskRequest "zz" None None None None None None None) demo_user
           eq_refl eq_refl).
Defined.

(** [UpdateTask] on a present record answers with the merged record when no
    registered callback raises: its 'Failed to update task' INTERNAL branch
    is unreachable. *)
Theorem UpdateTask_ok (wf : nat -> bool) (verify : string -> option JWTPayload)
    (now : Z) (md : Metadata) (st : Store) (ureq : UpdateTaskRequest)
    (user : JWTPayload) (t : Task) :
  authenticateCall verify md = Some user -> getTask (ur_id ureq) st = Some t ->
  registry_safe (taskUpdateSubscribers st) = true ->
  fst (UpdateTask wf verify now md ureq st) = Ok (merge_task now t (build_updates ureq)) /\
  getTask (ur_id ureq) (snd (UpdateTask wf verify now md ureq st))
    = Some (merge_task now t (build_updates ureq)).
Proof.
  intros Ha Hg Hs. unfold UpdateTask. rewrite Ha, Hg.
  unfold updateTask. unfold getTask in Hg. rewrite Hg.
  unfold notifyTaskUpdate, notify_run. cbn [taskUpdateSubscribers].
  rewrite (proj1 (notify_safe wf _ _ Hs)). cbn [fst snd].
  split; [reflexivity|unfold getTask; apply map_get_set_same].
Qed.

Lemma UpdateTask_ok_witness :
  authenticateCall demo_verify demo_md = Some demo_user /\
  getTask (ur_id (mkUpdateTaskRequest "a1" (Some "x") None None None None None None))
    two_task_store = Some (mk_demo_task "a1" 5) /\
  registry_safe (taskUpdateSubscribers two_task_store) = true /\
  fst (UpdateTask no_write_fails demo_verify 9 demo_md
         (mkUpdateTaskRequest "a1" (Some "x") None None None None None None) two_task_store)
  = Ok (merge_task 9 (mk_demo_task "a1" 5)
          (build_updates (mkUpdateTaskRequest "a1" (Some "x") None None None None None None))).
Proof.
  split; [reflexivity|split; [reflexivity|split; [reflexivity|]]].
  exact (proj1 (UpdateTask_ok no_write_fails demo_verify 9 demo_md two_task_store
    (mkUpdateTaskRequest "a1" (Some "x") None None None None None None) demo_user
    (mk_demo_task "a1" 5) eq_refl eq_refl eq_refl)).
Defined.

(** [DeleteTask] on a present record removes it whatever the broadcast does:
    the reply is OK, or INTERNAL when a callback raised, and afterwards
    [GetTask] and a second [DeleteTask] of the same identifier get NOT_FOUND. *)
Theorem DeleteTask_removes (wf : nat -> bool) (verify : string -> option JWTPayload)
    (now now' : Z) (md : Metadata) (i : string) (st : Store) (user : JWTPayload) (t : Task) :
  authenticateCall verify md = Some user -> getTask i st = Some t ->
  let st' := snd (DeleteTask wf verify now md i st) in
  (fst (DeleteTask wf verify now md i st) = Ok tt \/
   fst (DeleteTask wf verify now md i st) = Err INTERNAL) /\
  GetTask verify md i st' = Err NOT_FOUND /\
  DeleteTask wf verify now' md i st' = (Err NOT_FOUND, st').
Proof.
  intros Ha Hg. unfold DeleteTask, GetTask. rewrite Ha.
  unfold deleteTask, getTask in *. rewrite Hg.
  unfold notifyTaskUpdate. cbn.
  case_thrown; cbn; rewrite map_get_delete_same; auto.
Qed.

Lemma DeleteTask_removes_witness :
  authenticateCall demo_verify demo_md = Some demo_user /\
  getTask "a1" two_task_store = Some (mk_demo_task "a1" 5) /\
  GetTask demo_verify demo_md "a1"
    (snd (DeleteTask no_write_fails demo_verify 3 demo_md "a1" two_task_store))
  = Err NOT_FOUND.
Proof.
  split; [reflexivity|split; [reflexivity|]].
  exact (proj1 (proj2 (DeleteTask_removes no_write_fails demo_verify 3 4 demo_md "a1"
    two_task_store demo_user (mk_demo_task "a1" 5) eq_refl eq_refl))).
Defined.

(** An authenticated [CreateTask] whose title or description is empty is
    refused with INVALID_ARGUMENT and leaves the store as it was. *)
Theorem CreateTask_invalid (wf : nat -> bool) (verify : string -> option JWTPayload)
    (now : Z) (md : Metadata) (req : CreateTaskRequest) (st : Store) (user : JWTPayload) :
  authenticateCall verify md = Some user ->
  c_title req = "" \/ c_description req = "" ->
  CreateTask wf verify now md req st = (Err INVALID_ARGUMENT, st).
Proof.
  intros Ha He. unfold CreateTask. rewrite Ha.
  destruct He as [He|He]; rewrite He; cbn; [reflexivity|].
  now rewrite orb_true_r.
Qed.

Lemma CreateTask_invalid_witness :
  authenticateCall demo_verify demo_md = Some demo_user /\
  CreateTask no_write_fails demo_verify 0 demo_md
    (mkCreateTaskRequest "t" "" None "" None None) two_task_store
  = (Err INVALID_ARGUMENT, two_task_store).
Proof.
  split; [reflexivity|].
  apply (CreateTask_invalid no_write_fails demo_verify 0 demo_md
    (mkCreateTaskRequest "t" "" None "" None None) two_task_store demo_user eq_refl).
  right; reflexivity.
Defined.

(** A successful [CreateTask] stores the request's title and description under
    the next generated identifier, assigned to the request's assignee when it
    is non-empty and to the caller otherwise. *)
Theorem CreateTask_fields (wf : nat -> bool) (verify : string -> option JWTPayload)
    (now : Z) (md : Metadata) (req : CreateTaskRequest) (st st' : Store)
    (user : JWTPayload) (t : Task) :
  authenticateCall verify md = Some user ->
  CreateTask wf verify now md req st = (Ok t, st') ->
  id t = uuid_of (next_uuid st) /\ title t = c_title req /\
  description t = c_description req /\ created_at t = now /\
  assignee_id t = (if str_truthy (c_assignee_id req) then c_assignee_id req
                   else user_id user).
Proof.
  intros Ha. unfold CreateTask. rewrite Ha.
  destruct (negb (str_truthy (c_title req)) || negb (str_truthy (c_description req)));
    [discriminate|].
  unfold createTask, notifyTaskUpdate.
  case_thrown; [discriminate|].
  intros H; injection H as <- <-. repeat split.
Qed.

Lemma CreateTask_fields_witness :
  authenticateCall demo_verify demo_md = Some demo_user /\
  CreateTask no_write_fails demo_verify 4 demo_md
    (mkCreateTaskRequest "t" "d" None "" None None) empty_store
  = (Ok (mkTask (uuid_of 0) "t" "d" PENDING MEDIUM "7f3a-01" 4 4 None []),
     mkStore [(uuid_of 0, mkTask (uuid_of 0) "t" "d" PENDING MEDIUM "7f3a-01" 4 4 None [])]
       [] 1 []) /\
  assignee_id (mkTask (uuid_of 0) "t" "d" PENDING MEDIUM "7f3a-01" 4 4 None []) = "7f3a-01".
Proof.
  split; [reflexivity|split; [reflexivity|]].
  exact (proj2 (proj2 (proj2 (proj2 (CreateTask_fields no_write_fails demo_verify 4 demo_md
    (mkCreateTaskRequest "t" "d" None "" None None) empty_store
    (mkStore [(uuid_of 0, mkTask (uuid_of 0) "t" "d" PENDING MEDIUM "7f3a-01" 4 4 None [])]
       [] 1 [])
    demo_user (mkTask (uuid_of 0) "t" "d" PENDING MEDIUM "7f3a-01" 4 4 None [])
    eq_refl eq_refl))))).
Defined.

(** When [CreateTask] answers INTERNAL because a callback raised during the
    CREATED broadcast, the record has nevertheless been stored under the
    next generated identifier. *)
Theorem CreateTask_internal_stored (wf : nat -> bool) (verify : string -> option JWTPayload)
    (now : Z) (md : Metadata) (req : CreateTaskRequest) (st st' : Store) :
  CreateTask wf verify now md req st = (Err INTERNAL, st') ->
  exists t, id t = uuid_of (next_uuid st) /\ getTask (id t) st' = Some t /\
            next_uuid st' = S (next_uuid st).
Proof.
  unfold CreateTask.
  destruct (authenticateCall verify md) as [user|]; [|discriminate].
  destruct (negb (str_truthy (c_title req)) || negb (str_truthy (c_description req)));
    [discriminate|].
  unfold createTask, notifyTaskUpdate.
  case_thrown; [|discriminate].
  intros H; injection H as <-.
  match goal with |- context [map_set _ ?t _] => exists t end.
  split; [reflexivity|split; [apply map_get_set_same|reflexivity]].
Qed.

Lemma CreateTask_internal_stored_witness :
  CreateTask no_write_fails demo_verify 4 demo_md
    (mkCreateTaskRequest "t" "d" None "" None None) raising_store
  = (Err INTERNAL, snd (CreateTask no_write_fails demo_verify 4 demo_md
                          (mkCreateTaskRequest "t" "d" None "" None None) raising_store)) /\
  exists t, id t = uuid_of (next_uuid raising_store) /\
    getTask (id t) (snd (CreateTask no_write_fails demo_verify 4 demo_md
                          (mkCreateTaskRequest "t" "d" None "" None None) raising_store))
    = Some t /\
    next_uuid (snd (CreateTask no_write_fails demo_verify 4 demo_md
                          (mkCreateTaskRequest "t" "d" None "" None None) raising_store))
    = S (next_uuid raising_store).
Proof.
  split; [reflexivity|].
  apply (CreateTask_internal_stored no_write_fails demo_verify 4 demo_md
    (mkCreateTaskRequest "t" "d" None "" None None) raising_store).
  reflexivity.
Defined.

(** ** Pagination *)

Lemma firstn_add {A} (a b : nat) (l : list A) :
  firstn (a + b) l = (firstn a l ++ firstn b (skipn a l))%list.
Proof.
  revert l; induction a as [|a IH]; intros l; [reflexivity|].
  destruct l as [|x l]; cbn; [now rewrite firstn_nil|now rewrite IH].
Qed.

Lemma js_slice_nonneg {A} (l : list A) (s e : Z) :
  (0 <= s)%Z -> (s <= e)%Z ->
  js_slice l s e = firstn (Z.to_nat (e - s)) (skipn (Z.to_nat s) l).
Proof.
  intros Hs He. unfold js_slice, slice_index.
  destruct (Z.ltb_spec s 0); [lia|]. destruct (Z.ltb_spec e 0); [lia|].
  set (len := Z.of_nat (length l)).
  destruct (Z.le_gt_cases s len) as [Hsl|Hsl].
  - rewrite (Z.min_l s len Hsl).
    destruct (Z.le_gt_cases e len) as [Hel|Hel].
    + now rewrite (Z.min_l e len Hel).
    + rewrite (Z.min_r e len) by lia.
      rewrite !firstn_all2; [reflexivity| |]; rewrite length_skipn; unfold len in *; lia.
  - rewrite (Z.min_r s len) by lia.
    rewrite !skipn_all2 by (unfold len in *; lia). now rewrite !firstn_nil.
Qed.

Lemma js_slice_length {A} (l : list A) (s e : Z) :
  (s <= e)%Z ->
  (Z.of_nat (length (js_slice l s e)) <= e - s)%Z /\ length (js_slice l s e) <= length l.
Proof.
  intros He. unfold js_slice. rewrite length_firstn, length_skipn.
  set (len := Z.of_nat (length l)).
  assert (Hk : (0 <= slice_index s len <= len)%Z)
    by (unfold slice_index; destruct (Z.ltb_spec s 0); unfold len; lia).
  assert (Hf : (slice_index e len - slice_index s len <= e - s)%Z).
  { unfold slice_index.
    destruct (Z.ltb_spec s 0), (Z.ltb_spec e 0); unfold len in *; lia. }
  split; [|lia].
  destruct (Z.le_gt_cases (slice_index e len - slice_index s len) 0); lia.
Qed.

(** [ListTasks] with a non-negative [page_size] answers with a page size in
    [0, 100] and at most that many records, never more than the number of
    matching records it reports. *)
Theorem ListTasks_page_bound (verify : string -> option JWTPayload) (md : Metadata)
    (req : ListTasksRequest) (st : Store) (r : ListTasksResponse) :
  (0 <= page_size req)%Z ->
  ListTasks verify md req st = Ok r ->
  (0 <= lr_page_size r <= 100)%Z /\
  (Z.of_nat (length (lr_tasks r)) <= lr_page_size r)%Z /\
  (Z.of_nat (length (lr_tasks r)) <= total_count r)%Z.
Proof.
  intros Hp. unfold ListTasks.
  destruct (authenticateCall verify md); [|discriminate].
  intros H; injection H as <-. unfold listTasks; cbn [lr_tasks total_count lr_page_size
    page_size page].
  set (ps := Z.min (if (page_size req =? 0)%Z then 10%Z else page_size req) 100).
  assert (Hps : (0 <= ps <= 100)%Z)
    by (unfold ps; destruct (Z.eqb_spec (page_size req) 0); lia).
  set (pg := if (page req =? 0)%Z then 1%Z else page req).
  set (l := sorted_tasks _ st).
  destruct (js_slice_length l ((pg - 1) * ps) ((pg - 1) * ps + ps)) as [H1 H2]; [lia|].
  split; [exact Hps|split; lia].
Qed.

Lemma ListTasks_page_bound_witness :
  (0 <= page_size (mkListTasksRequest (-3) 0 None None None))%Z /\
  ListTasks demo_verify demo_md (mkListTasksRequest (-3) 0 None None None) (many_tasks_store 12)
  = Ok (listTasks (mkListTasksRequest (-3) 10 None None None) (many_tasks_store 12)) /\
  (Z.of_nat (length (lr_tasks (listTasks (mkListTasksRequest (-3) 10 None None None)
                                  (many_tasks_store 12))))
   <= lr_page_size (listTasks (mkListTasksRequest (-3) 10 None None None)
                                  (many_tasks_store 12)))%Z.
Proof.
  split; [cbn; lia|split; [reflexivity|]].
  exact (proj1 (proj2 (ListTasks_page_bound demo_verify demo_md
    (mkListTasksRequest (-3) 0 None None None) (many_tasks_store 12) _
    ltac:(cbn; lia) eq_refl))).
Defined.

(** With a positive page size [k], the pages 1, ..., n of [listTasks] under
    the same filters, read in order, are exactly the first [n * k] records of
    the sorted matching records: no record is skipped or repeated. *)
Theorem listTasks_pages (f : ListTasksRequest) (st : Store) (k : Z) (n : nat) :
  (0 < k)%Z ->
  flat_map (fun p => lr_tasks (listTasks (mkListTasksRequest (Z.of_nat p) k
                         (status_filter f) (priority_filter f) (assignee_filter f)) st))
           (seq 1 n)
  = firstn (n * Z.to_nat k) (sorted_tasks f st).
Proof.
  intros Hk. induction n as [|n IH]; [reflexivity|].
  rewrite seq_S, flat_map_app, IH. cbn [flat_map]. rewrite app_nil_r.
  replace (S n * Z.to_nat k) with (n * Z.to_nat k + Z.to_nat k) by lia.
  rewrite firstn_add. f_equal.
  unfold listTasks. cbn [lr_tasks page page_size].
  rewrite js_slice_nonneg by lia.
  replace (Z.to_nat ((Z.of_nat (1 + n) - 1) * k + k - (Z.of_nat (1 + n) - 1) * k))
    with (Z.to_nat k) by lia.
  replace (Z.to_nat ((Z.of_nat (1 + n) - 1) * k)) with (n * Z.to_nat k) by lia.
  reflexivity.
Qed.

Lemma listTasks_pages_witness :
  (0 < 5)%Z /\
  flat_map (fun p => lr_tasks (listTasks (mkListTasksRequest (Z.of_nat p) 5
                         None None None) (many_tasks_store 12)))
           (seq 1 3)
  = firstn (3 * Z.to_nat 5) (sorted_tasks first_page (many_tasks_store 12)).
Proof.
  split; [lia|].
  exact (listTasks_pages first_page (many_tasks_store 12) 5 3 ltac:(lia)).
Defined.

(** [ListTasks] treats an empty [assignee_filter] (the decoded default of the
    unset proto3 string) as no assignee filter. *)
Theorem ListTasks_empty_assignee (verify : string -> option JWTPayload) (md : Metadata)
    (pg ps : Z) (sf : option TaskStatus) (pf : option TaskPriority) (st : Store) :
  ListTasks verify md (mkListTasksRequest pg ps sf pf (Some "")) st
  = ListTasks verify md (mkListTasksRequest pg ps sf pf None) st.
Proof.
  unfold ListTasks. destruct (authenticateCall verify md); [|reflexivity].
  cbn [page page_size status_filter priority_filter assignee_filter].
  unfold listTasks, sorted_tasks, filtered_tasks, assignee_ok.
  cbn [assignee_filter str_truthy page page_size]. reflexivity.
Qed.

(** ** The subscription registry *)

Lemma subscribe_as_set (userId : string) (cb : callback) (taskIds : option (list string))
    (r : registry) :
  subscribe userId cb taskIds r
  = map_set (sub_key userId taskIds)
      (set_add cb (match map_get (sub_key userId taskIds) r with
                   | Some s => s | None => [] end)) r.
Proof.
  unfold subscribe. destruct (map_get (sub_key userId taskIds) r) eqn:E.
  - now rewrite E.
  - now rewrite map_get_set_same, map_set_set.
Qed.

Lemma existsb_callback_in (cb : callback) (s : list callback) :
  existsb (callback_eqb cb) s = true <-> In cb s.
Proof.
  rewrite existsb_exists. split.
  - intros (c & Hin & Hc). now rewrite (callback_eqb_true _ _ Hc).
  - intros Hin. exists cb. split; [exact Hin|apply callback_eqb_refl].
Qed.

Lemma set_add_in (cb : callback) (s : list callback) : In cb (set_add cb s).
Proof.
  unfold set_add. destruct (existsb (callback_eqb cb) s) eqn:E.
  - now apply existsb_callback_in.
  - apply in_or_app; right; now left.
Qed.

Lemma set_add_present (cb : callback) (s : list callback) :
  In cb s -> set_add cb s = s.
Proof.
  intros H. unfold set_add. now rewrite (proj2 (existsb_callback_in cb s) H).
Qed.

Lemma set_delete_absent (cb : callback) (s : list callback) :
  ~ In cb s -> set_delete cb s = s.
Proof.
  unfold set_delete. induction s as [|c s IH]; intros H; [reflexivity|].
  cbn. unfold callback_eqb at 1. destruct (callback_eq_dec cb c) as [->|Hne].
  - exfalso; apply H; now left.
  - cbn. rewrite IH; [reflexivity|]. intros Hin; apply H; now right.
Qed.

Lemma map_get_forall {V} (P : V -> Prop) (k : string) (v : V) (m : list (string * V)) :
  Forall (fun e => P (snd e)) m -> map_get k m = Some v -> P v.
Proof.
  intros HF Hg. destruct (map_get_in k v m Hg) as [k' Hin].
  rewrite Forall_forall in HF. exact (HF _ Hin).
Qed.

(** Subscribing the same callback under the same user and task filter twice
    registers it once: the second [subscribe] leaves the registry unchanged. *)
Theorem subscribe_idempotent (userId : string) (cb : callback)
    (taskIds : option (list string)) (r : registry) :
  subscribe userId cb taskIds (subscribe userId cb taskIds r)
  = subscribe userId cb taskIds r.
Proof.
  rewrite (subscribe_as_set userId cb taskIds (subscribe userId cb taskIds r)).
  rewrite (subscribe_as_set userId cb taskIds r).
  rewrite map_get_set_same, map_set_set, set_add_present by apply set_add_in.
  reflexivity.
Qed.

Lemma unsubscribe_after_subscribe (userId : string) (cb : callback)
    (taskIds : option (list string)) (r : registry) :
  registry_wf r ->
  (forall s, map_get (sub_key userId taskIds) r = Some s -> ~ In cb s) ->
  unsubscribe (sub_key userId taskIds) cb (subscribe userId cb taskIds r) = r.
Proof.
  intros [_ Hne] Hfresh. rewrite subscribe_as_set.
  set (key := sub_key userId taskIds) in *.
  unfold unsubscribe. rewrite map_get_set_same, map_set_set.
  destruct (map_get key r) as [s|] eqn:E.
  - assert (Hn : ~ In cb s) by now apply Hfresh.
    assert (Hs : s <> []) by exact (map_get_forall (fun v => v <> []) key s r Hne E).
    assert (Hx : existsb (callback_eqb cb) s = false).
    { apply Bool.not_true_iff_false. rewrite existsb_callback_in. exact Hn. }
    unfold set_add. rewrite Hx.
    unfold set_delete. rewrite filter_app. fold (set_delete cb s).
    rewrite set_delete_absent by exact Hn. cbn. rewrite callback_eqb_refl. cbn.
    rewrite app_nil_r.
    destruct (Nat.eqb_spec (length s) 0) as [H0|_].
    + destruct s; [contradiction|discriminate].
    + now apply map_set_same_value.
  - cbn. rewrite callback_eqb_refl. cbn.
    rewrite map_set_absent by exact E.
    unfold map_delete. rewrite filter_app. cbn. rewrite String.eqb_refl. cbn.
    rewrite app_nil_r. fold (map_delete key r). now apply map_delete_absent.
Qed.


(** On a well-formed registry, the unsubscribe closure returned by
    [subscribeToTaskUpdates] for a callback not yet registered under its key
    restores the registry exactly: a key it created is removed again, an
    existing set gets its old contents back, in place. *)
Theorem subscribe_unsubscribe (userId : string) (cb : callback)
    (taskIds : option (list string)) (r : registry) :
  registry_wf r ->
  (forall s, map_get (sub_key userId taskIds) r = Some s -> ~ In cb s) ->
  unsubscribe (sub_key userId taskIds) cb (subscribe userId cb taskIds r) = r.
Proof. exact (unsubscribe_after_subscribe userId cb taskIds r). Qed.

Lemma subscribe_unsubscribe_witness :
  registry_wf [("7f3a-01", [Raw 1 false])] /\
  unsubscribe (sub_key "7f3a-01" None) (Session 4)
    (subscribe "7f3a-01" (Session 4) None [("7f3a-01", [Raw 1 false])])
  = [("7f3a-01", [Raw 1 false])].
Proof.
  assert (Hwf : registry_wf [("7f3a-01", [Raw 1 false])]).
  { split; [repeat constructor; cbn; tauto|repeat constructor; discriminate]. }
  split; [exact Hwf|].
  apply (subscribe_unsubscribe "7f3a-01" (Session 4) None _ Hwf).
  intros s Hs; cbn in Hs; injection Hs as <-; cbn; intuition discriminate.
Defined.

Lemma registry_wf_set (k : string) (v : list callback) (r : registry) :
  registry_wf r -> v <> [] -> registry_wf (map_set k v r).
Proof.
  intros [Hd Hne] Hv. split.
  - destruct (map_get k r) as [w|] eqn:E.
    + now rewrite (map_set_present_keys k v w r E).
    + rewrite (map_set_absent k v r E), map_app. cbn.
      apply NoDup_app; [exact Hd|repeat constructor; auto|].
      intros x Hx [<-|[]]. exact (map_get_none_keys k r E Hx).
  - rewrite Forall_forall in *. intros [k' s] Hin.
    destruct (in_map_set k k' v s r Hin) as [H|[_ ->]]; [exact (Hne _ H)|exact Hv].
Qed.

(** [subscribe] and [unsubscribe] keep the registry well formed: its keys
    stay distinct and no key is left with an empty set of callbacks. *)
Theorem registry_wf_preserved (userId : string) (cb : callback)
    (taskIds : option (list string)) (key : string) (r : registry) :
  registry_wf r ->
  registry_wf (subscribe userId cb taskIds r) /\ registry_wf (unsubscribe key cb r).
Proof.
  intros Hwf. split.
  - rewrite subscribe_as_set. apply registry_wf_set; [exact Hwf|].
    intros H. pose proof (set_add_in cb (match map_get (sub_key userId taskIds) r with
                                         | Some s => s | None => [] end)) as Hin.
    rewrite H in Hin. exact Hin.
  - unfold unsubscribe. destruct (map_get key r) as [s|] eqn:E; [|exact Hwf].
    destruct (Nat.eqb_spec (length (set_delete cb s)) 0) as [H0|H0].
    + destruct Hwf as [Hd Hne]. split.
      * apply nodup_keys_delete.
        now rewrite (map_set_present_keys key (set_delete cb s) s r E).
      * rewrite Forall_forall in *. intros [k' s'] Hin.
        unfold map_delete in Hin. rewrite filter_In in Hin. destruct Hin as [Hin Hk].
        destruct (in_map_set key k' _ s' r Hin) as [H|[-> _]]; [exact (Hne _ H)|].
        cbn in Hk. now rewrite String.eqb_refl in Hk.
    + apply registry_wf_set; [exact Hwf|]. intros H; apply H0; now rewrite H.
Qed.

Lemma registry_wf_preserved_witness :
  registry_wf [("7f3a-01", [Raw 1 false])] /\
  registry_wf (subscribe "7f3a-01" (Session 4) (Some ["a1"]) [("7f3a-01", [Raw 1 false])]).
Proof.
  assert (Hwf : registry_wf [("7f3a-01", [Raw 1 false])]).
  { split; [repeat constructor; cbn; tauto|repeat constructor; discriminate]. }
  split; [exact Hwf|].
  exact (proj1 (registry_wf_preserved "7f3a-01" (Session 4) (Some ["a1"]) "7f3a-01" _ Hwf)).
Defined.

(** When the confirmation write of [SubscribeTaskUpdates] raises, the
    [call.on('error')] listener undoes the registration: on a well-formed
    registry where the stream was not yet registered under its key, the
    call answers INTERNAL and leaves the store exactly as it was. *)
Theorem SubscribeTaskUpdates_write_failure (wf : nat -> bool)
    (verify : string -> option JWTPayload) (now : Z) (md : Metadata)
    (req : SubscribeTaskUpdatesRequest) (stream : nat) (st : Store) (user : JWTPayload) :
  authenticateCall verify md = Some user -> wf stream = true ->
  registry_wf (taskUpdateSubscribers st) ->
  (forall s, map_get (sub_key (user_id user) (task_ids req)) (taskUpdateSubscribers st)
             = Some s -> ~ In (Session stream) s) ->
  SubscribeTaskUpdates wf verify now md req stream st = (Err INTERNAL, st).
Proof.
  intros Ha Hw Hwf Hfresh. unfold SubscribeTaskUpdates. rewrite Ha, Hw.
  rewrite (unsubscribe_after_subscribe _ _ _ _ Hwf Hfresh).
  now destruct st.
Qed.

Lemma SubscribeTaskUpdates_write_failure_witness :
  SubscribeTaskUpdates (fun s => Nat.eqb s 4) demo_verify 0 demo_md
    (mkSubscribeRequest "7f3a-01" (Some ["a1"])) 4 raising_store
  = (Err INTERNAL, raising_store).
Proof.
  apply (SubscribeTaskUpdates_write_failure (fun s => Nat.eqb s 4) demo_verify 0 demo_md
    (mkSubscribeRequest "7f3a-01" (Some ["a1"])) 4 raising_store demo_user eq_refl eq_refl).
  - split; [repeat constructor; cbn; tauto|repeat constructor; discriminate].
  - intros s Hs; discriminate.
Defined.

(** ** Token extraction *)

Lemma substring_all (t : string) : substring 0 (String.length t) t = t.
Proof. induction t as [|c t IH]; cbn; [reflexivity|now rewrite IH]. Qed.

(** The token is read from the first [authorization] metadata value: a
    'Bearer ' prefix is stripped, any other value is taken whole; an empty
    token is refused without calling the verifier, any other one is handed
    to it. *)
Theorem authenticateCall_header (verify : string -> option JWTPayload) (md : Metadata)
    (t : string) (rest : list string) :
  (metadata_get "authorization" md = ("Bearer " ++ t) :: rest ->
   authenticateCall verify md = if str_truthy t then verify t else None) /\
  (metadata_get "authorization" md = t :: rest -> String.prefix "Bearer " t = false ->
   authenticateCall verify md = if str_truthy t then verify t else None).
Proof.
  unfold authenticateCall, extractTokenFromMetadata. split.
  - intros H. rewrite H. cbn.
    replace (String.prefix "" t) with true by (destruct t; reflexivity).
    rewrite Nat.sub_0_r, substring_all. reflexivity.
  - intros H Hp. now rewrite H, Hp.
Qed.

Lemma authenticateCall_header_witness :
  metadata_get "authorization" [("x-trace", "1"); ("authorization", "Bearer tok")]
    = ("Bearer " ++ "tok") :: [] /\
  authenticateCall demo_verify [("x-trace", "1"); ("authorization", "Bearer tok")]
    = Some demo_user.
Proof.
  split; [reflexivity|].
  exact (proj1 (authenticateCall_header demo_verify
    [("x-trace", "1"); ("authorization", "Bearer tok")] "tok" [] ) eq_refl).
Defined.

(** ** Users *)

Definition usernames (us : UserStore) : list string :=
  map (fun su => usr_username (fst su)) (map_values us).

Lemma find_none_forall {A} (f : A -> bool) (l : list A) :
  find f l = None -> forall x, In x l -> f x = false.
Proof.
  induction l as [|a l IH]; cbn; [tauto|].
  destruct (f a) eqn:E; [discriminate|]. intros H x [<-|Hx]; auto.
Qed.

Lemma username_absent (name : string) (us : UserStore) :
  getUserByUsername name us = None -> ~ In name (usernames us).
Proof.
  unfold getUserByUsername, usernames. intros H Hin.
  apply in_map_iff in Hin as (su & Hn & Hsu).
  pose proof (find_none_forall _ _ H su Hsu) as Hf. cbn in Hf.
  rewrite Hn, String.eqb_refl in Hf. discriminate.
Qed.

Lemma usernames_set (k : string) (v : User * string) (us : UserStore) (n : string) :
  In n (usernames (map_set k v us)) -> In n (usernames us) \/ n = usr_username (fst v).
Proof.
  unfold usernames, map_values. rewrite map_map. intros Hin.
  apply in_map_iff in Hin as ([k' su] & Hn & Hsu). cbn in Hn.
  destruct (in_map_set k k' v su us Hsu) as [H|[_ ->]]; [left|right; congruence].
  rewrite map_map. apply in_map_iff. exists (k', su). auto.
Qed.

Lemma usernames_nodup_set (k : string) (v : User * string) (us : UserStore) :
  NoDup (usernames us) -> ~ In (usr_username (fst v)) (usernames us) ->
  NoDup (usernames (map_set k v us)).
Proof.
  induction us as [|[k' su] us IH]; cbn; intros Hd Hn; [repeat constructor; auto|].
  inversion Hd as [|x l Hx Hd' Heq]; subst.
  destruct (String.eqb k k'); cbn.
  - constructor; [|exact Hd']. intros H; apply Hn; now right.
  - constructor; [|apply IH; [exact Hd'|intros H; apply Hn; now right]].
    intros H. destruct (usernames_set k v us _ H) as [H1|H1]; [exact (Hx H1)|].
    apply Hn; now left.
Qed.

Lemma find_set_unique (k : string) (v : User * string) (us : UserStore) (name : string) :
  getUserByUsername name us = None -> usr_username (fst v) = name ->
  getUserByUsername name (map_set k v us) = Some v.
Proof.
  unfold getUserByUsername, map_values.
  induction us as [|[k' su] us IH]; cbn; intros Hg Hv.
  - now rewrite Hv, String.eqb_refl.
  - destruct (String.eqb (usr_username (fst su)) name) eqn:Ef; [discriminate|].
    destruct (String.eqb k k'); cbn.
    + now rewrite Hv, String.eqb_refl.
    + rewrite Ef. now apply IH.
Qed.

(** Run one at a time, [CreateUser] keeps usernames unique: a store whose
    usernames are distinct still has distinct usernames afterwards, whatever
    identifier [uuidv4()] returned. *)
Theorem CreateUser_unique_usernames (hashPassword : string -> string) (fresh : string)
    (now : Z) (req : CreateUserRequest) (us : UserStore) :
  NoDup (usernames us) ->
  NoDup (usernames (snd (CreateUser hashPassword fresh now req us))).
Proof.
  intros Hd. unfold CreateUser, CreateUser_check.
  destruct (_ || _); [exact Hd|].
  destruct (getUserByUsername (cu_username req) us) eqn:E; [exact Hd|].
  unfold CreateUser_commit, createUser. cbn [snd].
  apply usernames_nodup_set; [exact Hd|]. cbn. now apply username_absent.
Qed.

Lemma CreateUser_unique_usernames_witness :
  NoDup (usernames []) /\
  NoDup (usernames (snd (CreateUser (fun p => p) "u1" 0
                           (mkCreateUserRequest "ann" "pw" "a@x" "Ann") []))).
Proof.
  split; [constructor|].
  exact (CreateUser_unique_usernames (fun p => p) "u1" 0
           (mkCreateUserRequest "ann" "pw" "a@x" "Ann") [] (NoDup_nil _)).
Defined.

(** After a successful [CreateUser], the username resolves to the created
    user with the hash of the given password, [getUserById] finds the user
    under its new identifier, and [Login] with that username succeeds
    exactly when [comparePassword] accepts the supplied password against
    that hash. *)
Theorem CreateUser_then_Login (hashPassword : string -> string)
    (comparePassword : string -> string -> bool) (generateTokens : User -> LoginResponse)
    (fresh : string) (now : Z) (req : CreateUserRequest) (us us' : UserStore) (u : User)
    (pw : string) :
  CreateUser hashPassword fresh now req us = (AOk u, us') ->
  str_truthy pw = true ->
  getUserByUsername (cu_username req) us' = Some (u, hashPassword (cu_password req)) /\
  getUserById fresh us' = Some u /\
  Login comparePassword generateTokens (cu_username req) pw us'
  = if comparePassword pw (hashPassword (cu_password req))
    then AOk (generateTokens u) else AErr A_UNAUTHENTICATED.
Proof.
  unfold CreateUser, CreateUser_check.
  destruct (_ || _) eqn:Hv; [discriminate|].
  destruct (getUserByUsername (cu_username req) us) eqn:E; [discriminate|].
  unfold CreateUser_commit, createUser. intros H Hpw. injection H as <- <-.
  assert (Hg : getUserByUsername (cu_username req)
                 (map_set fresh
                    (mkUser fresh (cu_username req) (cu_email req) (cu_full_name req) now,
                     hashPassword (cu_password req)) us)
               = Some (mkUser fresh (cu_username req) (cu_email req) (cu_full_name req) now,
                       hashPassword (cu_password req)))
    by (apply find_set_unique; [exact E|reflexivity]).
  split; [exact Hg|split].
  - unfold getUserById. now rewrite map_get_set_same.
  - unfold Login, login. rewrite Hg, Hpw.
    destruct (str_truthy (cu_username req)); [|discriminate]. cbn.
    now destruct (comparePassword pw _).
Qed.

Lemma CreateUser_then_Login_witness :
  CreateUser (fun p => p) "u1" 0 (mkCreateUserRequest "ann" "pw" "a@x" "Ann") []
  = (AOk (mkUser "u1" "ann" "a@x" "Ann" 0), [("u1", (mkUser "u1" "ann" "a@x" "Ann" 0, "pw"))]) /\
  Login String.eqb (fun u => mkLoginResponse (usr_id u) "r" 1) "ann" "pw"
    [("u1", (mkUser "u1" "ann" "a@x" "Ann" 0, "pw"))]
  = AOk (mkLoginResponse "u1" "r" 1).
Proof.
  split; [reflexivity|].
  exact (proj2 (proj2 (CreateUser_then_Login (fun p => p) String.eqb
    (fun u => mkLoginResponse (usr_id u) "r" 1) "u1" 0
    (mkCreateUserRequest "ann" "pw" "a@x" "Ann") [] _ _ "pw" eq_refl eq_refl))).
Defined.

(** [CreateUser] checks for a duplicate username before its
    [await hashPassword(...)] and creates the user after it: two calls for
    the same new username whose checks both run before either creation
    (the event loop interleaves them at the [await]) both succeed, and the
    store then holds two users with that username. *)
Theorem CreateUser_race (hashPassword : string -> string) (f1 f2 : string) (n1 n2 : Z)
    (req1 req2 : CreateUserRequest) (us : UserStore) :
  cu_username req1 = cu_username req2 ->
  CreateUser_check req1 us = None -> CreateUser_check req2 us = None ->
  map_get f1 us = None -> map_get f2 us = None -> f1 <> f2 ->
  count_occ String.string_dec
    (usernames (snd (CreateUser_commit hashPassword f2 n2 req2
                       (snd (CreateUser_commit hashPassword f1 n1 req1 us)))))
    (cu_username req1) = 2.
Proof.
  intros Hn Hc1 _ Hg1 Hg2 Hf. unfold CreateUser_check in Hc1.
  destruct (_ || _); [discriminate|].
  destruct (getUserByUsername (cu_username req1) us) eqn:E; [discriminate|].
  unfold CreateUser_commit, createUser. cbn [snd].
  rewrite (map_set_absent f1 _ us Hg1).
  assert (Hg2' : map_get f2 (us ++ [(f1, (mkUser f1 (cu_username req1) (cu_email req1)
                   (cu_full_name req1) n1, hashPassword (cu_password req1)))])%list = None).
  { clear E. induction us as [|[k v] us IH]; cbn in *.
    - destruct (String.eqb_spec f2 f1); [congruence|reflexivity].
    - destruct (String.eqb f2 k); [discriminate|].
      destruct (String.eqb f1 k); [discriminate|]. now apply IH. }
  rewrite (map_set_absent f2 _ _ Hg2').
  unfold usernames, map_values. rewrite !map_app, !map_map. cbn.
  rewrite <- app_assoc. rewrite count_occ_app.
  assert (Hz : count_occ String.string_dec
                 (map (fun x => usr_username (fst (snd x))) us) (cu_username req1) = 0).
  { apply count_occ_not_In. pose proof (username_absent _ _ E) as Ha.
    unfold usernames, map_values in Ha. now rewrite map_map in Ha. }
  rewrite Hz. cbn. rewrite <- Hn.
  destruct (String.string_dec (cu_username req1) (cu_username req1)); [|congruence].
  reflexivity.
Qed.

Lemma CreateUser_race_witness :
  CreateUser_check (mkCreateUserRequest "ann" "pw1" "a@x" "Ann") [] = None /\
  CreateUser_check (mkCreateUserRequest "ann" "pw2" "b@x" "Ann B") [] = None /\
  count_occ String.string_dec
    (usernames (snd (CreateUser_commit (fun p => p) "u2" 1
                       (mkCreateUserRequest "ann" "pw2" "b@x" "Ann B")
                       (snd (CreateUser_commit (fun p => p) "u1" 0
                               (mkCreateUserRequest "ann" "pw1" "a@x" "Ann") [])))))
    "ann" = 2.
Proof.
  split; [reflexivity|split; [reflexivity|]].
  exact (CreateUser_race (fun p => p) "u1" "u2" 0 1
    (mkCreateUserRequest "ann" "pw1" "a@x" "Ann")
    (mkCreateUserRequest "ann" "pw2" "b@x" "Ann B") [] eq_refl eq_refl eq_refl
    eq_refl eq_refl ltac:(discriminate)).
Defined.
